(** * Data-analysis assistant: orchestrator, summarizer and renderer

    A shallow embedding of [utils/ai_agent.py] (class [DataAnalysisAgent])
    and [utils/visualizer.py] (class [DataVisualizer]).

    Python values are an inductive type, [str] is a [string] holding the
    UTF-8 bytes of the text, exceptions are an explicit error monad
    ([outcome]) and the Streamlit calls of the renderer are a list of
    widgets in call order. *)

From Stdlib Require Import List String Ascii ZArith NArith Lia Bool Arith.
From Stdlib Require Import DecimalString.
#[global] Set Warnings "-register-all".
Import ListNotations.
Open Scope list_scope.
Open Scope string_scope.

(* ================================================================== *)
(** ** Python values *)

(** A float read by [json.loads]: a decimal literal [m * 10^e], or one of
    the three constants the decoder accepts. *)
Inductive pyfloat :=
| FDec (m : Z) (e : Z)
| FNaN
| FInf
| FNegInf.

(** The values [json.loads] builds, and the lists the renderer builds.
    A [dict] keeps insertion order: an association list without repeated
    keys. *)
Inductive pyobj :=
| PNone
| PBool (b : bool)
| PInt (z : Z)
| PFloat (f : pyfloat)
| PStr (s : string)
| PList (items : list pyobj)
| PDict (entries : list (string * pyobj)).

(** Exception classes raised in the modelled code. *)
Inductive exn_class :=
| TypeError
| AttributeError
| KeyError
| JSONDecodeError
| RecursionError
| OtherError (name : string).

(** An exception (an instance of [Exception], which is what the
    handlers of the program catch): its class and the text [str(e)]
    gives. *)
Record exn := Exn { exn_cls : exn_class; exn_str : string }.

(** The result of running a piece of Python: a value, or a raised
    exception. *)
Inductive outcome (A : Type) :=
| Ret (a : A)
| Raise (e : exn).
Arguments Ret {A} a.
Arguments Raise {A} e.

Definition bind {A B} (m : outcome A) (k : A -> outcome B) : outcome B :=
  match m with
  | Ret a => k a
  | Raise e => Raise e
  end.

(** [try: body except Exception as e: handler(e)] *)
Definition try_except {A} (body : outcome A) (handler : exn -> outcome A)
  : outcome A :=
  match body with
  | Ret a => Ret a
  | Raise e => handler e
  end.

Notation "x <- m ;; k" := (bind m (fun x => k))
  (at level 61, m at next level, right associativity).

Definition is_JSONDecodeError (e : exn) : bool :=
  match exn_cls e with
  | JSONDecodeError => true
  | _ => false
  end.

(* ------------------------------------------------------------------ *)
(** *** Text helpers *)

(** [++] joins texts; lists are joined with [+++]. *)
Infix "+++" := (@List.app _) (at level 60, right associativity).

Definition chars (s : string) : list ascii := list_ascii_of_string s.
Definition text (l : list ascii) : string := string_of_list_ascii l.

(** Decimal text of a natural number and of an integer: [str(n)]. *)
Definition str_nat (n : nat) : string :=
  NilZero.string_of_uint (Nat.to_uint n).

Definition str_Z (z : Z) : string :=
  match z with
  | Z0 => "0"
  | Zpos p => str_nat (Pos.to_nat p)
  | Zneg p => "-" ++ str_nat (Pos.to_nat p)
  end.

Definition byte_of (c : ascii) : nat := nat_of_ascii c.

(** A byte that continues a UTF-8 sequence: [10xxxxxx]. *)
Definition is_continuation (c : ascii) : bool :=
  ((128 <=? byte_of c)%nat && (byte_of c <? 192)%nat)%bool.

(** Number of code points of a UTF-8 text: [len(s)] for a [str]. *)
Definition codepoints (l : list ascii) : nat :=
  List.length (filter (fun c => negb (is_continuation c)) l).

Fixpoint is_prefix (p s : list ascii) : bool :=
  match p, s with
  | [], _ => true
  | _ :: _, [] => false
  | a :: p', b :: s' => Ascii.eqb a b && is_prefix p' s'
  end.

(** [needle in haystack] for two [str]. *)
Fixpoint is_substring (needle s : list ascii) : bool :=
  is_prefix needle s ||
  match s with
  | [] => false
  | _ :: s' => is_substring needle s'
  end.

(** [sep.join(parts)] *)
Fixpoint join (sep : string) (parts : list string) : string :=
  match parts with
  | [] => ""
  | [p] => p
  | p :: rest => p ++ sep ++ join sep rest
  end.

(* ------------------------------------------------------------------ *)
(** *** Built-in operations on values *)

Definition type_name (v : pyobj) : string :=
  match v with
  | PNone => "NoneType"
  | PBool _ => "bool"
  | PInt _ => "int"
  | PFloat _ => "float"
  | PStr _ => "str"
  | PList _ => "list"
  | PDict _ => "dict"
  end.

(** A decimal literal that [float()] rounds to zero: it is zero, or its
    magnitude is at most [2^-1075], half of the least positive double. *)
Definition float_is_zero (f : pyfloat) : bool :=
  match f with
  | FDec m e =>
      (m =? 0)%Z ||
      ((e <? 0)%Z && (Z.abs m * 2 ^ 1075 <=? 10 ^ (- e))%Z)
  | _ => false
  end.

(** Truth value of a value: [bool(v)], as [if v] and [not v] test it. *)
Definition truthy (v : pyobj) : bool :=
  match v with
  | PNone => false
  | PBool b => b
  | PInt z => negb (z =? 0)%Z
  | PFloat f => negb (float_is_zero f)
  | PStr s => negb (String.eqb s "")
  | PList l => match l with [] => false | _ => true end
  | PDict d => match d with [] => false | _ => true end
  end.

(** [len(v)]: defined on [str], [list] and [dict]. *)
Definition py_len (v : pyobj) : outcome nat :=
  match v with
  | PStr s => Ret (codepoints (chars s))
  | PList l => Ret (List.length l)
  | PDict d => Ret (List.length d)
  | _ => Raise (Exn TypeError
                  ("object of type '" ++ type_name v ++ "' has no len()"))
  end.

Fixpoint dict_lookup (k : string) (d : list (string * pyobj))
  : option pyobj :=
  match d with
  | [] => None
  | (k', v) :: rest => if String.eqb k k' then Some v else dict_lookup k rest
  end.

Definition dict_has (k : string) (d : list (string * pyobj)) : bool :=
  match dict_lookup k d with
  | Some _ => true
  | None => false
  end.

(** [d[k] = v]: the value of an existing key is replaced where the key
    stands, a new key goes last. *)
Fixpoint dict_set (k : string) (v : pyobj) (d : list (string * pyobj))
  : list (string * pyobj) :=
  match d with
  | [] => [(k, v)]
  | (k', v') :: rest =>
      if String.eqb k k' then (k', v) :: rest
      else (k', v') :: dict_set k v rest
  end.

Definition is_str (k : string) (v : pyobj) : bool :=
  match v with
  | PStr s => String.eqb s k
  | _ => false
  end.

(** [k in v] for a [str] key [k]: key membership in a [dict], element
    membership in a [list], substring test in a [str]; a [TypeError] on
    every other value. *)
Definition py_in (k : string) (v : pyobj) : outcome bool :=
  match v with
  | PDict d => Ret (dict_has k d)
  | PList l => Ret (existsb (is_str k) l)
  | PStr s => Ret (is_substring (chars k) (chars s))
  | _ => Raise (Exn TypeError
                  ("argument of type '" ++ type_name v ++ "' is not iterable"))
  end.

(** [v[k]] for a [str] key [k]. *)
Definition py_getitem (v : pyobj) (k : string) : outcome pyobj :=
  match v with
  | PDict d =>
      match dict_lookup k d with
      | Some x => Ret x
      | None => Raise (Exn KeyError ("'" ++ k ++ "'"))
      end
  | PList _ =>
      Raise (Exn TypeError "list indices must be integers or slices, not str")
  | PStr _ =>
      Raise (Exn TypeError "string indices must be integers, not 'str'")
  | _ => Raise (Exn TypeError
                  ("'" ++ type_name v ++ "' object is not subscriptable"))
  end.

(** [v.get(k, default)]: a method of [dict] only. *)
Definition py_get (v : pyobj) (k : string) (default : pyobj)
  : outcome pyobj :=
  match v with
  | PDict d =>
      match dict_lookup k d with
      | Some x => Ret x
      | None => Ret default
      end
  | _ => Raise (Exn AttributeError
                  ("'" ++ type_name v ++ "' object has no attribute 'get'"))
  end.

(* ================================================================== *)
(** ** [str.strip()] *)

(** The characters [str.strip()] removes are those of [str.isspace()]:
    U+0009..U+000D, U+001C..U+0020, U+0085, U+00A0, U+1680,
    U+2000..U+200A, U+2028, U+2029, U+202F, U+205F and U+3000, here by
    their UTF-8 bytes. *)
Definition is_space1 (a : ascii) : bool :=
  let n := byte_of a in
  (((9 <=? n) && (n <=? 13)) || ((28 <=? n) && (n <=? 32)))%nat.

Definition is_space2 (a b : ascii) : bool :=
  ((byte_of a =? 194) && ((byte_of b =? 133) || (byte_of b =? 160)))%nat.

Definition is_space3 (a b c : ascii) : bool :=
  let x := byte_of a in
  let y := byte_of b in
  let z := byte_of c in
  (((x =? 225) && (y =? 154) && (z =? 128))
   || ((x =? 226) && (y =? 128)
       && (((128 <=? z) && (z <=? 138)) || (z =? 168) || (z =? 169)
           || (z =? 175)))
   || ((x =? 226) && (y =? 129) && (z =? 159))
   || ((x =? 227) && (y =? 128) && (z =? 128)))%nat.

Fixpoint lstrip (s : list ascii) : list ascii :=
  match s with
  | [] => []
  | a :: r1 =>
      if is_space1 a then lstrip r1
      else
        match r1 with
        | [] => s
        | b :: r2 =>
            if is_space2 a b then lstrip r2
            else
              match r2 with
              | [] => s
              | c :: r3 => if is_space3 a b c then lstrip r3 else s
              end
        end
  end.

(** The same on the reversed text: the last byte of a character comes
    first. *)
Fixpoint lstrip_rev (s : list ascii) : list ascii :=
  match s with
  | [] => []
  | a :: r1 =>
      if is_space1 a then lstrip_rev r1
      else
        match r1 with
        | [] => s
        | b :: r2 =>
            if is_space2 b a then lstrip_rev r2
            else
              match r2 with
              | [] => s
              | c :: r3 => if is_space3 c b a then lstrip_rev r3 else s
              end
        end
  end.

Definition py_strip (s : string) : string :=
  text (rev (lstrip_rev (rev (lstrip (chars s))))).

(* ================================================================== *)
(** ** [json.loads] *)

Definition dquote : ascii := "034"%char.
Definition backslash : ascii := "092"%char.

(** Test texts are written with ['] where the program's text has a
    double quote. *)
Definition unq (s : string) : string :=
  text (map (fun c => if Ascii.eqb c "'"%char then dquote else c) (chars s)).

(** Result of scanning a prefix of the document: a value and the text
    after it, a decoding error at a position (given as the text that
    starts there), or nesting deeper than the scanner's budget. *)
Inductive scan (A : Type) :=
| Scanned (a : A) (rest : list ascii)
| ScanError (msg : string) (at_ : list ascii)
| ScanDepth.
Arguments Scanned {A} a rest.
Arguments ScanError {A} msg at_.
Arguments ScanDepth {A}.

Definition is_json_ws (c : ascii) : bool :=
  let n := byte_of c in
  ((n =? 32) || (n =? 9) || (n =? 10) || (n =? 13))%nat.

Fixpoint skip_ws (s : list ascii) : list ascii :=
  match s with
  | c :: r => if is_json_ws c then skip_ws r else s
  | [] => []
  end.

Definition is_digit (c : ascii) : bool :=
  ((48 <=? byte_of c) && (byte_of c <=? 57))%nat.

Fixpoint span_digits (s : list ascii) : list ascii * list ascii :=
  match s with
  | c :: r =>
      if is_digit c then
        let (ds, rest) := span_digits r in (c :: ds, rest)
      else ([], s)
  | [] => ([], [])
  end.

Definition digits_value (ds : list ascii) : Z :=
  fold_left (fun acc c => (acc * 10 + Z.of_nat (byte_of c - 48))%Z) ds 0%Z.

Definition hex_value (c : ascii) : option N :=
  let n := N_of_ascii c in
  (if (48 <=? n) && (n <=? 57) then Some (n - 48)
   else if (97 <=? n) && (n <=? 102) then Some (n - 87)
   else if (65 <=? n) && (n <=? 70) then Some (n - 55)
   else None)%N.

Definition hex4 (a b c d : ascii) : option N :=
  match hex_value a, hex_value b, hex_value c, hex_value d with
  | Some w, Some x, Some y, Some z =>
      Some (((w * 16 + x) * 16 + y) * 16 + z)%N
  | _, _, _, _ => None
  end.

Definition byte (n : N) : ascii := ascii_of_N n.

(** UTF-8 bytes of a code point (a lone surrogate is written like any
    other three-byte character). *)
Definition utf8 (cp : N) : list ascii :=
  (if cp <? 128 then [byte cp]
   else if cp <? 2048 then [byte (192 + cp / 64); byte (128 + cp mod 64)]
   else if cp <? 65536 then
     [byte (224 + cp / 4096); byte (128 + (cp / 64) mod 64);
      byte (128 + cp mod 64)]
   else
     [byte (240 + cp / 262144); byte (128 + (cp / 4096) mod 64);
      byte (128 + (cp / 64) mod 64); byte (128 + cp mod 64)])%N.

Definition is_high_surrogate (cp : N) : bool :=
  ((55296 <=? cp) && (cp <=? 56319))%N.
Definition is_low_surrogate (cp : N) : bool :=
  ((56320 <=? cp) && (cp <=? 57343))%N.
Definition join_surrogates (hi lo : N) : N :=
  (65536 + (hi - 55296) * 1024 + (lo - 56320))%N.

(** The character a one-letter escape stands for. *)
Definition simple_escape (e : ascii) : option ascii :=
  let n := byte_of e in
  if (n =? 34)%nat then Some dquote
  else if (n =? 92)%nat then Some backslash
  else if (n =? 47)%nat then Some "/"%char
  else if (n =? 98)%nat then Some (byte 8)
  else if (n =? 102)%nat then Some (byte 12)
  else if (n =? 110)%nat then Some (byte 10)
  else if (n =? 114)%nat then Some (byte 13)
  else if (n =? 116)%nat then Some (byte 9)
  else None.

(** [scanstring]: the text after an opening quote, up to the closing
    one. [start] is the text from the opening quote, [acc] the decoded
    bytes so far, last first. As in the decoder, the four digits of a
    [\u] escape must be followed by at least one more character, and a
    high surrogate is joined with a following [\u] escape only when that
    one is a low surrogate and is followed by one more character. *)
Fixpoint scanstring (start s acc : list ascii) : scan string :=
  match s with
  | [] => ScanError "Unterminated string starting at" start
  | c :: r =>
      if Ascii.eqb c dquote then Scanned (text (rev acc)) r
      else if Ascii.eqb c backslash then
        match r with
        | [] => ScanError "Unterminated string starting at" start
        | e :: r1 =>
            if Ascii.eqb e "u"%char then
              match r1 with
              | h1 :: h2 :: h3 :: h4 :: ((_ :: _) as r2) =>
                  match hex4 h1 h2 h3 h4 with
                  | None => ScanError "Invalid \uXXXX escape" r
                  | Some cp =>
                      let lone :=
                        scanstring start r2 (rev (utf8 cp) +++ acc) in
                      if is_high_surrogate cp then
                        match r2 with
                        | b :: u :: g1 :: g2 :: g3 :: g4 :: ((_ :: _) as r3) =>
                            if Ascii.eqb b backslash && Ascii.eqb u "u"%char
                            then
                              match hex4 g1 g2 g3 g4 with
                              | None =>
                                  ScanError "Invalid \uXXXX escape"
                                    (u :: g1 :: g2 :: g3 :: g4 :: r3)
                              | Some lo =>
                                  if is_low_surrogate lo then
                                    scanstring start r3
                                      (rev (utf8 (join_surrogates cp lo))
                                       +++ acc)
                                  else lone
                              end
                            else lone
                        | _ => lone
                        end
                      else lone
                  end
              | _ => ScanError "Invalid \uXXXX escape" r
              end
            else
              match simple_escape e with
              | Some b => scanstring start r1 (b :: acc)
              | None => ScanError "Invalid \escape" s
              end
        end
      else if (byte_of c <? 32)%nat then
        ScanError "Invalid control character at" s
      else scanstring start r (c :: acc)
  end.

(** The number at the head of [s], if any, by the decoder's pattern: an
    optional minus sign, then a single 0 or a run of digits that starts
    with 1-9; then, optionally, a dot and digits; then, optionally, e or
    E, a sign and digits. *)
Definition number_sign (s : list ascii) : Z * list ascii :=
  match s with
  | c :: r => if Ascii.eqb c "-"%char then ((-1)%Z, r) else (1%Z, s)
  | [] => (1%Z, s)
  end.

Definition number_integer (s : list ascii)
  : option (list ascii * list ascii) :=
  match s with
  | c :: r =>
      if Ascii.eqb c "0"%char then Some ([c], r)
      else if is_digit c then Some (span_digits s)
      else None
  | [] => None
  end.

Definition number_fraction (s : list ascii)
  : option (list ascii) * list ascii :=
  match s with
  | p :: d :: _ =>
      if Ascii.eqb p "."%char && is_digit d
      then let (fs, r) := span_digits (tl s) in (Some fs, r)
      else (None, s)
  | _ => (None, s)
  end.

Definition number_exponent (s : list ascii) : option Z * list ascii :=
  match s with
  | e :: r =>
      if Ascii.eqb e "e"%char || Ascii.eqb e "E"%char then
        let (esign, r1) :=
          match r with
          | c :: r' =>
              if Ascii.eqb c "-"%char then ((-1)%Z, r')
              else if Ascii.eqb c "+"%char then (1%Z, r')
              else (1%Z, r)
          | [] => (1%Z, r)
          end in
        match r1 with
        | d :: _ =>
            if is_digit d
            then let (es, r2) := span_digits r1 in
                 (Some (esign * digits_value es)%Z, r2)
            else (None, s)
        | [] => (None, s)
        end
      else (None, s)
  | [] => (None, s)
  end.

(** An [int] when there is neither fraction nor exponent, a [float]
    otherwise. *)
Definition match_number (s : list ascii) : option (pyobj * list ascii) :=
  let (sign, s1) := number_sign s in
  match number_integer s1 with
  | None => None
  | Some (ds, s2) =>
      let (frac, s3) := number_fraction s2 in
      let (expo, s4) := number_exponent s3 in
      match frac, expo with
      | None, None => Some (PInt (sign * digits_value ds), s4)
      | _, _ =>
          let fs := match frac with Some fs => fs | None => [] end in
          let ex := match expo with Some ex => ex | None => 0%Z end in
          Some (PFloat (FDec (sign * digits_value (ds +++ fs))
                             (ex - Z.of_nat (List.length fs))), s4)
      end
  end.

(** [s] without the literal [lit] at its head. *)
Definition eat (lit : string) (s : list ascii) : option (list ascii) :=
  if is_prefix (chars lit) s then Some (skipn (String.length lit) s)
  else None.

(** [scan_once] with the decoder's [JSONObject] and [JSONArray]: one
    value at the head of [s]. Each call spends one unit of [fuel]. *)
Fixpoint scan_once (fuel : nat) (s : list ascii) {struct fuel}
  : scan pyobj :=
  match fuel with
  | O => ScanDepth
  | S fuel' =>
      match s with
      | [] => ScanError "Expecting value" s
      | c :: r =>
          if Ascii.eqb c dquote then
            match scanstring s r [] with
            | Scanned str rest => Scanned (PStr str) rest
            | ScanError msg at_ => ScanError msg at_
            | ScanDepth => ScanDepth
            end
          else if Ascii.eqb c "{"%char then
            match eat "}" (skip_ws r) with
            | Some rest => Scanned (PDict []) rest
            | None => object_members fuel' [] (skip_ws r)
            end
          else if Ascii.eqb c "["%char then
            match eat "]" (skip_ws r) with
            | Some rest => Scanned (PList []) rest
            | None => array_items fuel' [] (skip_ws r)
            end
          else
            match eat "null" s, eat "true" s, eat "false" s with
            | Some rest, _, _ => Scanned PNone rest
            | _, Some rest, _ => Scanned (PBool true) rest
            | _, _, Some rest => Scanned (PBool false) rest
            | _, _, _ =>
                match eat "NaN" s, eat "Infinity" s, eat "-Infinity" s with
                | Some rest, _, _ => Scanned (PFloat FNaN) rest
                | _, Some rest, _ => Scanned (PFloat FInf) rest
                | _, _, Some rest => Scanned (PFloat FNegInf) rest
                | _, _, _ =>
                    match match_number s with
                    | Some (v, rest) => Scanned v rest
                    | None => ScanError "Expecting value" s
                    end
                end
            end
      end
  end

with object_members (fuel : nat) (acc : list (string * pyobj))
       (s : list ascii) {struct fuel} : scan pyobj :=
  match fuel with
  | O => ScanDepth
  | S fuel' =>
      match s with
      | q :: r =>
          if Ascii.eqb q dquote then
            match scanstring s r [] with
            | Scanned key r1 =>
                match eat ":" (skip_ws r1) with
                | Some r2 =>
                    match scan_once fuel' (skip_ws r2) with
                    | Scanned v r3 =>
                        let acc' := dict_set key v acc in
                        match eat "}" (skip_ws r3), eat "," (skip_ws r3) with
                        | Some rest, _ => Scanned (PDict acc') rest
                        | _, Some r4 => object_members fuel' acc' (skip_ws r4)
                        | _, _ =>
                            ScanError "Expecting ',' delimiter" (skip_ws r3)
                        end
                    | err => err
                    end
                | None => ScanError "Expecting ':' delimiter" (skip_ws r1)
                end
            | ScanError msg at_ => ScanError msg at_
            | ScanDepth => ScanDepth
            end
          else
            ScanError "Expecting property name enclosed in double quotes" s
      | [] => ScanError "Expecting property name enclosed in double quotes" s
      end
  end

with array_items (fuel : nat) (acc : list pyobj) (s : list ascii)
       {struct fuel} : scan pyobj :=
  match fuel with
  | O => ScanDepth
  | S fuel' =>
      match scan_once fuel' s with
      | Scanned v r1 =>
          let acc' := acc +++ [v] in
          match eat "]" (skip_ws r1), eat "," (skip_ws r1) with
          | Some rest, _ => Scanned (PList acc') rest
          | _, Some r2 => array_items fuel' acc' (skip_ws r2)
          | _, _ => ScanError "Expecting ',' delimiter" (skip_ws r1)
          end
      | err => err
      end
  end.

(** The part of [l] after its last newline, [cur] being what was read
    since the last one. *)
Fixpoint after_last_newline (l cur : list ascii) : list ascii :=
  match l with
  | [] => cur
  | c :: r =>
      if Ascii.eqb c (byte 10) then after_last_newline r []
      else after_last_newline r (cur +++ [c])
  end.

(** The text of a [JSONDecodeError] raised at the position where [at_]
    starts in [doc]: [msg: line L column C (char P)], counted in
    characters. *)
Definition decode_error (msg : string) (doc at_ : list ascii) : exn :=
  let before := firstn (List.length doc - List.length at_) doc in
  let pos := codepoints before in
  let lineno := S (List.length (filter (Ascii.eqb (byte 10)) before)) in
  let colno := S (codepoints (after_last_newline before [])) in
  Exn JSONDecodeError
      (msg ++ ": line " ++ str_nat lineno ++ " column " ++ str_nat colno
           ++ " (char " ++ str_nat pos ++ ")").

Definition has_bom (s : list ascii) : bool :=
  is_prefix [byte 239; byte 187; byte 191] s.

(** [json.loads(doc)]: one value between optional whitespace, and nothing
    after it. The scanner's budget, twice the length of the document and
    one more, is enough for every document ([scan_budget] below); the
    error texts are those of CPython 3.12. *)
Definition json_loads (doc : string) : outcome pyobj :=
  let s := chars doc in
  if has_bom s then
    Raise (decode_error "Unexpected UTF-8 BOM (decode using utf-8-sig)" s s)
  else
    match scan_once (S (2 * List.length s)) (skip_ws s) with
    | Scanned v rest =>
        match skip_ws rest with
        | [] => Ret v
        | extra => Raise (decode_error "Extra data" s extra)
        end
    | ScanError msg at_ => Raise (decode_error msg s at_)
    | ScanDepth =>
        Raise (Exn RecursionError "maximum recursion depth exceeded")
    end.

(** What the scanner owes its caller on the text [s]: a result that
    leaves less than [s], or an error, and never an exhausted budget. *)
Definition scan_ok {A} (s : list ascii) (r : scan A) : Prop :=
  match r with
  | Scanned _ rest => List.length rest < List.length s
  | ScanError _ _ => True
  | ScanDepth => False
  end.

(* ================================================================== *)
(** ** [re.findall] for the two salvage patterns *)

(** The two patterns of [json_patterns]: the brace-free
    [\{[^{}]*\}] and the lazy [\{.*?\}], both used with [re.DOTALL]. *)
Inductive pattern :=
| BraceFree
| BraceLazy.

(** Matches of the brace-free pattern, left to right. [cur] is the text
    since the last opening brace, last byte first, when no other brace
    came after it: an opening brace restarts the candidate, a closing
    brace completes it, and every other character extends it. *)
Fixpoint findall_brace_free (s : list ascii) (cur : option (list ascii))
  : list string :=
  match s with
  | [] => []
  | c :: r =>
      if Ascii.eqb c "{"%char then findall_brace_free r (Some [c])
      else if Ascii.eqb c "}"%char then
        match cur with
        | Some acc => text (rev (c :: acc)) :: findall_brace_free r None
        | None => findall_brace_free r None
        end
      else findall_brace_free r (option_map (cons c) cur)
  end.

(** Matches of the lazy pattern: from an opening brace to the first
    closing brace after it, whatever stands between (with [re.DOTALL]
    the dot matches a newline too); the search goes on after the match. *)
Fixpoint findall_brace_lazy (s : list ascii) (cur : option (list ascii))
  : list string :=
  match s with
  | [] => []
  | c :: r =>
      match cur with
      | None =>
          if Ascii.eqb c "{"%char then findall_brace_lazy r (Some [c])
          else findall_brace_lazy r None
      | Some acc =>
          if Ascii.eqb c "}"%char
          then text (rev (c :: acc)) :: findall_brace_lazy r None
          else findall_brace_lazy r (Some (c :: acc))
      end
  end.

Definition re_findall (p : pattern) (s : string) : list string :=
  match p with
  | BraceFree => findall_brace_free (chars s) None
  | BraceLazy => findall_brace_lazy (chars s) None
  end.

(* ================================================================== *)
(** ** The dataset *)

(** The four figures of [Series.describe()] the summary prints, as the
    f-string formats them. *)
Record stats := {
  mean_2f : string;
  max_str : string;
  min_str : string;
  std_2f : string
}.

(** What the program asks of pandas about the scalars a DataFrame holds.
    The scalars themselves, their text and the statistics on them are
    pandas' own. *)
Class Pandas := {
  cell : Type;
  (** [NaN], [None], [NaT]: a missing value *)
  isnull : cell -> bool;
  (** equality of two scalars, as [nunique] counts them *)
  cell_eqb : cell -> cell -> bool;
  (** the text of [row[col]] inside an f-string *)
  cell_str : cell -> string;
  (** a missing value *)
  NA : cell;
  (** [Series.describe()] on a numeric column; it may raise *)
  describe : list cell -> outcome stats;
  (** [Series.value_counts()]: value texts and counts, most frequent
      first; it may raise *)
  value_counts : list cell -> outcome (list (string * nat))
}.

Section Dataset.
Context {pd : Pandas}.

(** A column: the name of its dtype and its values, one per row. *)
Record Series := {
  dtype : string;
  values : list cell
}.

(** A DataFrame with the default index [0 .. n-1] (what [read_csv],
    [reset_index(drop=True)] and [pd.DataFrame(records)] give) and
    columns with distinct labels, each of the index's length. *)
Record DataFrame := {
  df_len : nat;
  df_columns : list (string * Series)
}.

(** [series.count()] *)
Definition count (s : Series) : nat :=
  List.length (filter (fun c => negb (isnull c)) (values s)).

(** [series.isnull().sum()] *)
Definition null_count (s : Series) : nat :=
  List.length (filter isnull (values s)).

(** The first occurrence of every value of [l]. *)
Fixpoint distinct (l seen : list cell) : list cell :=
  match l with
  | [] => []
  | c :: r =>
      if existsb (cell_eqb c) seen then distinct r seen
      else c :: distinct r (c :: seen)
  end.

(** [series.nunique()]: the number of distinct values that are not
    missing. *)
Definition nunique (s : Series) : nat :=
  List.length (distinct (filter (fun c => negb (isnull c)) (values s)) []).

(** [series.iloc[i]] *)
Definition iloc (s : Series) (i : nat) : cell := nth i (values s) NA.

(** Python's [l[a:b]], with negative bounds counted from the end and
    both clipped to the list. *)
Definition clip (n : nat) (i : Z) : nat :=
  let j := if (i <? 0)%Z then (i + Z.of_nat n)%Z else i in
  Nat.min (Z.to_nat j) n.

Definition py_slice {A} (a b : Z) (l : list A) : list A :=
  let lo := clip (List.length l) a in
  let hi := clip (List.length l) b in
  firstn (hi - lo) (skipn lo l).

(** The index labels of the frame, of [df.head(k)], of [df.tail(k)] and
    of [df.iloc[a:b]]. *)
Definition index (df : DataFrame) : list nat := seq 0 (df_len df).
Definition head_index (k : nat) (df : DataFrame) : list nat :=
  firstn k (index df).
Definition tail_index (k : nat) (df : DataFrame) : list nat :=
  skipn (df_len df - k) (index df).
Definition iloc_index (a b : Z) (df : DataFrame) : list nat :=
  py_slice a b (index df).

Definition newline : string := String (byte 10) "".

(* ================================================================== *)
(** ** The summarizer: [_generate_complete_data_info] *)

Definition numeric_dtypes : list string :=
  ["int64"; "float64"; "int32"; "float32"].

Definition str_in (x : string) (l : list string) : bool :=
  existsb (String.eqb x) l.

(** The lines appended for one column. *)
Definition column_info (col : string * Series) : list string :=
  let (name, s) := col in
  ["列名：" ++ name;
   "  数据类型：" ++ dtype s;
   "  非空值：" ++ str_nat (count s) ++ "个";
   "  空值：" ++ str_nat (null_count s) ++ "个";
   "  唯一值：" ++ str_nat (nunique s) ++ "个"]
  +++ (if str_in (dtype s) numeric_dtypes then
         match describe (values s) with
         | Ret st =>
             ["  统计信息：均值=" ++ mean_2f st ++ ", 最大值=" ++ max_str st
              ++ ", 最小值=" ++ min_str st ++ ", 标准差=" ++ std_2f st]
         | Raise _ => []
         end
       else if String.eqb (dtype s) "object"
               || String.eqb (dtype s) "category" then
         match value_counts (values s) with
         | Ret vc =>
             "  值分布（前10个）：" ::
             map (fun vc => "    " ++ fst vc ++ ": " ++ str_nat (snd vc) ++ "次")
                 (firstn 10 vc)
         | Raise _ => []
         end
       else [])
  +++ [""].

(** The line of the row with index label [idx]:
    [f"第{idx+1}行：{', '.join(row_data)}"]. *)
Definition row_data (df : DataFrame) (idx : nat) : list string :=
  map (fun col => fst col ++ "=" ++ cell_str (iloc (snd col) idx))
      (df_columns df).

Definition row_line (df : DataFrame) (idx : nat) : string :=
  "第" ++ str_nat (idx + 1) ++ "行：" ++ join ", " (row_data df idx).

Definition mid_start (df : DataFrame) : Z := (Z.of_nat (df_len df) / 2 - 5)%Z.
Definition mid_end (df : DataFrame) : Z := (Z.of_nat (df_len df) / 2 + 5)%Z.

(** The part of [info_parts] that shows rows: every row of a frame of
    at most 100 rows, three samples of a longer one. *)
Definition data_parts (df : DataFrame) : list string :=
  if (df_len df <=? 100)%nat then
    "完整数据集：" :: map (row_line df) (index df)
  else
    ["数据样本（包含前10行、中间10行、后10行）："; "前10行："]
    +++ map (row_line df) (head_index 10 df)
    +++ ["中间部分（第" ++ str_Z (mid_start df + 1) ++ "-"
           ++ str_Z (mid_end df) ++ "行）："]
    +++ map (row_line df) (iloc_index (mid_start df) (mid_end df) df)
    +++ ["最后10行："]
    +++ map (row_line df) (tail_index 10 df).

Definition info_parts (df : DataFrame) : list string :=
  ["数据集基本信息：";
   "总行数：" ++ str_nat (df_len df);
   "总列数：" ++ str_nat (List.length (df_columns df));
   "";
   "列信息和详细统计："]
  +++ flat_map column_info (df_columns df)
  +++ data_parts df.

(** [_generate_complete_data_info]. The operations of the body raise
    nothing on a well-formed frame of scalars, so its [except] branch
    (which returns the text of the fault) is not reached. *)
Definition _generate_complete_data_info (df : DataFrame) : string :=
  join newline (info_parts df).

Definition generate_data_summary (df : DataFrame) : string :=
  _generate_complete_data_info df.

End Dataset.

(** [self.system_prompt] *)
Definition system_prompt : string := unq
"你是一位专业的数据分析助手，请根据提供的完整数据集回答用户问题。

重要要求：
1. 必须基于提供的真实数据进行分析，不得自行生成或假设数据
2. 所有统计结果必须来自实际计算，不得估算
3. 如果数据不足以回答问题，请明确说明

根据用户请求类型，请选择以下格式之一进行回答：

**文字回答格式：**
{'answer': '基于数据的准确分析结果'}

**表格数据格式：**  
{'table': {'columns': ['列名1', '列名2', ...], 'data': [['真实值1', '真实值2', ...], ['真实值1', '真实值2', ...]]}}

**柱状图格式：**
{'bar': {'columns': ['类别1', '类别2', ...], 'data': [真实数值1, 真实数值2, ...]}}

**折线图格式：**
{'line': {'columns': ['时间点1', '时间点2', ...], 'data': [真实数值1, 真实数值2, ...]}}

**饼图格式：**
{'pie': {'labels': ['标签1', '标签2', ...], 'values': [真实数值1, 真实数值2, ...]}}

**散点图格式：**
{'scatter': {'x': [x值1, x值2, ...], 'y': [y值1, y值2, ...], 'labels': ['点1', '点2', ...]}}

格式要求：
- 所有字符串使用双引号
- 数值不加引号
- 确保JSON格式完整无误
- 数据必须来自真实数据集，不得编造

输出示例：
正确：{'bar': {'columns': ['产品A', '产品B'], 'data': [150, 200]}}
错误：{'bar': {'columns': ['产品A', '产品B'], 'data': ['150', '200']}}".

(* ================================================================== *)
(** ** The orchestrator: [DataAnalysisAgent] *)

(** What [process_query] returns: the dict with [success] true, [data]
    and [raw_response], or the dict with [success] false, [error] and
    [raw_response]. *)
Inductive QueryResult :=
| Success (data : pyobj) (raw_response : string)
| Failure (error : string) (raw_response : string).

(** The three messages of a failure, by the category they stand for. *)
Definition consistency_error : string := "AI返回的数据与实际数据不一致".
Definition format_error (e : exn) : string :=
  "JSON解析失败或数据不一致: " ++ exn_str e.
Definition processing_error (e : exn) : string :=
  "AI处理错误: " ++ exn_str e.

(** [max(l, default=d)] *)
Definition max_default (l : list nat) (d : nat) : nat :=
  match l with
  | [] => d
  | x :: r => fold_left Nat.max r x
  end.

Section Agent.
Context {pd : Pandas}.

(** [[df[col].nunique() for col in df.columns
      if df[col].dtype == 'object']] *)
Definition object_nuniques (df : DataFrame) : list nat :=
  map (fun col => nunique (snd col))
      (filter (fun col => String.eqb (dtype (snd col)) "object")
              (df_columns df)).

(** [max_unique_values] of the chart check:
    [max([...nunique()...], default=len(df))], the greatest [nunique]
    over the columns of dtype [object], or the number of rows when there
    is no such column. *)
Definition max_unique_values (df : DataFrame) : nat :=
  max_default (object_nuniques df) (df_len df).

(** The payload the chart check reads: that of ['bar'] when the key is
    present, that of ['line'] otherwise. *)
Definition chart_payload (d : list (string * pyobj)) : option pyobj :=
  match dict_lookup "bar" d with
  | Some p => Some p
  | None => dict_lookup "line" d
  end.

(** The body of the [try] of [_validate_data_consistency]. *)
Definition validate_body (ai_result : pyobj) (df : DataFrame)
  : outcome bool :=
  has_table <- py_in "table" ai_result ;;
  if has_table then
    table_data <- py_getitem ai_result "table" ;;
    has_data <- py_in "data" table_data ;;
    if has_data then
      data <- py_getitem table_data "data" ;;
      n <- py_len data ;;
      if (df_len df * 2 <? n)%nat then Ret false else Ret true
    else Ret true
  else
    has_bar <- py_in "bar" ai_result ;;
    has_chart <- (if has_bar then Ret true else py_in "line" ai_result) ;;
    if has_chart then
      is_bar <- py_in "bar" ai_result ;;
      let chart_key := if is_bar then "bar" else "line" in
      chart_data <- py_getitem ai_result chart_key ;;
      has_data <- py_in "data" chart_data ;;
      has_both <- (if has_data then py_in "columns" chart_data
                   else Ret false) ;;
      if has_both then
        data <- py_getitem chart_data "data" ;;
        n <- py_len data ;;
        columns <- py_getitem chart_data "columns" ;;
        k <- py_len columns ;;
        if negb (n =? k)%nat then Ret false
        else
          let limit := max_unique_values df in
          data' <- py_getitem chart_data "data" ;;
          n' <- py_len data' ;;
          if (limit * 2 <? n')%nat then Ret false else Ret true
      else Ret true
    else Ret true.

(** [_validate_data_consistency]: any exception of the body makes the
    answer [True]. *)
Definition _validate_data_consistency (ai_result : pyobj) (df : DataFrame)
  : bool :=
  match validate_body ai_result df with
  | Ret b => b
  | Raise _ => true
  end.

End Agent.

Definition json_patterns : list pattern := [BraceFree; BraceLazy].

(** The inner loop of [_extract_json_from_text]: the first match that
    [json.loads] accepts; a [JSONDecodeError] moves on to the next
    match, any other exception leaves the function. *)
Fixpoint first_parse (matches : list string) : outcome (option pyobj) :=
  match matches with
  | [] => Ret None
  | m :: rest =>
      match json_loads m with
      | Ret v => Ret (Some v)
      | Raise e => if is_JSONDecodeError e then first_parse rest else Raise e
      end
  end.

Fixpoint extract_with (patterns : list pattern) (s : string)
  : outcome (option pyobj) :=
  match patterns with
  | [] => Ret None
  | p :: rest =>
      found <- first_parse (re_findall p s) ;;
      match found with
      | Some v => Ret (Some v)
      | None => extract_with rest s
      end
  end.

Definition _extract_json_from_text (s : string) : outcome (option pyobj) :=
  extract_with json_patterns s.

(** A candidate that [json.loads] refuses with a [JSONDecodeError]. *)
Definition refused (candidate : string) : Prop :=
  exists e, json_loads candidate = Raise e /\ is_JSONDecodeError e = true.

Section Query.
Context {pd : Pandas}.

(** The language model: [self.model.invoke(prompt).content], or the
    exception the call raises. *)
Variable model : string -> outcome string.

Definition full_prompt (user_question : string) (df : DataFrame) : string :=
  newline ++ system_prompt ++ newline ++ newline
  ++ "完整数据集信息：" ++ newline
  ++ _generate_complete_data_info df ++ newline ++ newline
  ++ "用户问题：" ++ user_question ++ newline ++ newline
  ++ "请基于上述真实数据回答问题，确保所有数值都来自实际计算。严格按照JSON格式输出。"
  ++ newline.

(** The body of the outer [try] of [process_query]. *)
Definition process_query_body (user_question : string) (df : DataFrame)
  : outcome QueryResult :=
  content <- model (full_prompt user_question df) ;;
  let response_text := py_strip content in
  match json_loads response_text with
  | Ret result =>
      if _validate_data_consistency result df
      then Ret (Success result response_text)
      else Ret (Failure consistency_error response_text)
  | Raise e =>
      if is_JSONDecodeError e then
        found <- _extract_json_from_text response_text ;;
        match found with
        | Some result =>
            if truthy result && _validate_data_consistency result df
            then Ret (Success result response_text)
            else Ret (Failure (format_error e) response_text)
        | None => Ret (Failure (format_error e) response_text)
        end
      else Raise e
  end.

(** [process_query]: whatever the body raises becomes a failure with an
    empty [raw_response]. *)
Definition process_query (user_question : string) (df : DataFrame)
  : outcome QueryResult :=
  try_except (process_query_body user_question df)
             (fun e => Ret (Failure (processing_error e) "")).

End Query.

(** [validate_response_format] *)
Definition valid_keys : list string :=
  ["answer"; "table"; "bar"; "line"; "pie"; "scatter"].

Definition validate_response_format (response_data : pyobj) : bool :=
  match response_data with
  | PDict d => existsb (fun key => dict_has key d) valid_keys
  | _ => false
  end.

(* ================================================================== *)
(** ** The renderer: [DataVisualizer] *)

(** What the renderer asks of Python beyond the operations above: the
    text of a value that is not a [str] inside an f-string, and the
    percentages of the pie chart's summary
    ([[f"{v/sum(values)*100:.1f}%" for v in values]]), which may raise. *)
Class Builtins := {
  py_repr : pyobj -> string;
  pie_shares : pyobj -> outcome (list string)
}.

(** [str(v)], as an f-string formats a value. *)
Definition py_str {py : Builtins} (v : pyobj) : string :=
  match v with
  | PStr s => s
  | _ => py_repr v
  end.

(** The calls into pandas, plotly and Streamlit are recorded with their
    arguments, in call order; those libraries are taken to accept what
    they are handed. *)
Inductive frame :=
| frame_of_rows (data columns : pyobj)
| frame_of_dict (cols : list (string * pyobj)).

Inductive trace :=
| go_Bar (x y : pyobj) (marker_color : list string) (text_ : pyobj)
| go_Scatter (x y : pyobj) (mode : string) (text_ : pyobj)
| go_Pie (labels values : pyobj) (marker_colors : list string).

Record figure := {
  fig_data : trace;
  fig_title : string;
  fig_axes : option (string * string)
}.

Inductive widget :=
| st_info (msg : string)
| st_warning (msg : string)
| st_error (msg : string)
| st_subheader (msg : string)
| st_dataframe (f : frame)
| st_download_button (label : string) (csv_of : frame)
    (file_name mime : string)
| st_plotly_chart (fig : figure)
| st_expander (label : string) (body : list widget)
| st_json (v : pyobj).

Definition color_palette : list string :=
  ["#1f77b4"; "#ff7f0e"; "#2ca02c"; "#d62728"; "#9467bd";
   "#8c564b"; "#e377c2"; "#7f7f7f"; "#bcbd22"; "#17becf"].

(** [try: body except Exception as e: st.error(f"{prefix}{str(e)}")],
    for a body that raises before it shows anything. *)
Definition show_or_error (prefix : string) (body : outcome (list widget))
  : list widget :=
  match body with
  | Ret ws => ws
  | Raise e => [st_error (prefix ++ exn_str e)]
  end.

Section Visualizer.
Context {py : Builtins}.

Definition _render_text_answer (answer : pyobj) : list widget :=
  [st_info ("分析结果: " ++ py_str answer)].

Definition _render_table (table_data : pyobj) : list widget :=
  show_or_error "表格渲染错误："
    (columns <- py_get table_data "columns" (PList []) ;;
     data <- py_get table_data "data" (PList []) ;;
     if negb (truthy columns) || negb (truthy data)
     then Ret [st_warning "表格数据为空"]
     else
       let df := frame_of_rows data columns in
       Ret [st_subheader "表格数据";
            st_dataframe df;
            st_download_button "下载表格数据" df "table_data.csv" "text/csv"]).

Definition _render_bar_chart (chart_data : pyobj) : list widget :=
  show_or_error "柱状图渲染错误："
    (columns <- py_get chart_data "columns" (PList []) ;;
     data <- py_get chart_data "data" (PList []) ;;
     if negb (truthy columns) || negb (truthy data)
     then Ret [st_warning "图表数据为空"]
     else
       n <- py_len columns ;;
       k <- py_len data ;;
       if negb (n =? k)%nat then Ret [st_error "列名和数据长度不匹配"]
       else
         Ret [st_plotly_chart
                {| fig_data := go_Bar columns data (firstn n color_palette) data;
                   fig_title := "柱状图分析";
                   fig_axes := Some ("类别", "数值") |};
              st_expander "数据详情"
                [st_dataframe
                   (frame_of_dict [("类别", columns); ("数值", data)])]]).

Definition _render_line_chart (chart_data : pyobj) : list widget :=
  show_or_error "折线图渲染错误："
    (columns <- py_get chart_data "columns" (PList []) ;;
     data <- py_get chart_data "data" (PList []) ;;
     if negb (truthy columns) || negb (truthy data)
     then Ret [st_warning "图表数据为空"]
     else
       n <- py_len columns ;;
       k <- py_len data ;;
       if negb (n =? k)%nat then Ret [st_error "列名和数据长度不匹配"]
       else
         Ret [st_plotly_chart
                {| fig_data := go_Scatter columns data "lines+markers" data;
                   fig_title := "趋势分析";
                   fig_axes := Some ("时间/类别", "数值") |};
              st_expander "数据详情"
                [st_dataframe
                   (frame_of_dict [("时间/类别", columns); ("数值", data)])]]).

Definition _render_pie_chart (chart_data : pyobj) : list widget :=
  show_or_error "饼图渲染错误："
    (labels <- py_get chart_data "labels" (PList []) ;;
     values <- py_get chart_data "values" (PList []) ;;
     if negb (truthy labels) || negb (truthy values)
     then Ret [st_warning "图表数据为空"]
     else
       n <- py_len labels ;;
       k <- py_len values ;;
       if negb (n =? k)%nat then Ret [st_error "标签和数值长度不匹配"]
       else
         let chart :=
           st_plotly_chart
             {| fig_data := go_Pie labels values (firstn n color_palette);
                fig_title := "比例分析";
                fig_axes := None |} in
         match pie_shares values with
         | Ret shares =>
             Ret [chart;
                  st_expander "数据详情"
                    [st_dataframe
                       (frame_of_dict
                          [("类别", labels); ("数值", values);
                           ("占比", PList (map PStr shares))])]]
         | Raise e =>
             Ret [chart; st_expander "数据详情" [];
                  st_error ("饼图渲染错误：" ++ exn_str e)]
         end).

(** [[f"点{i+1}" for i in range(n)]] *)
Definition default_labels (n : nat) : pyobj :=
  PList (map (fun i => PStr ("点" ++ str_nat (i + 1))) (seq 0 n)).

(** The last part of [_render_scatter_chart]: the chart and its summary
    for the labels settled on. *)
Definition scatter_widgets (x_data y_data labels : pyobj) : list widget :=
  [st_plotly_chart
     {| fig_data := go_Scatter x_data y_data "markers" labels;
        fig_title := "散点分析";
        fig_axes := Some ("X轴", "Y轴") |};
   st_expander "数据详情"
     [st_dataframe
        (frame_of_dict [("标签", labels); ("X值", x_data); ("Y值", y_data)])]].

Definition _render_scatter_chart (chart_data : pyobj) : list widget :=
  show_or_error "散点图渲染错误："
    (x_data <- py_get chart_data "x" (PList []) ;;
     y_data <- py_get chart_data "y" (PList []) ;;
     labels <- py_get chart_data "labels" (PList []) ;;
     if negb (truthy x_data) || negb (truthy y_data)
     then Ret [st_warning "图表数据为空"]
     else
       n <- py_len x_data ;;
       k <- py_len y_data ;;
       if negb (n =? k)%nat then Ret [st_error "X和Y数据长度不匹配"]
       else
         labels' <-
           (if negb (truthy labels) then
              n' <- py_len x_data ;; Ret (default_labels n')
            else
              m <- py_len labels ;;
              n' <- py_len x_data ;;
              if negb (m =? n')%nat then
                n'' <- py_len x_data ;; Ret (default_labels n'')
              else Ret labels) ;;
         Ret (scatter_widgets x_data y_data labels')).

(** The six branches of [render_response], in the order of the
    [if]/[elif] chain. *)
Definition renderers : list (string * (pyobj -> list widget)) :=
  [("answer", _render_text_answer);
   ("table", _render_table);
   ("bar", _render_bar_chart);
   ("line", _render_line_chart);
   ("pie", _render_pie_chart);
   ("scatter", _render_scatter_chart)].

(** The [if]/[elif]/[else] chain: the first key that is [in] the
    response decides. *)
Fixpoint dispatch (branches : list (string * (pyobj -> list widget)))
  (response_data : pyobj) : outcome (list widget) :=
  match branches with
  | [] => Ret [st_warning "不支持的响应格式"]
  | (key, render) :: rest =>
      present <- py_in key response_data ;;
      if present then
        payload <- py_getitem response_data key ;;
        Ret (render payload)
      else dispatch rest response_data
  end.

Definition render_response (response_data : pyobj) : list widget :=
  if negb (truthy response_data) then [st_warning "没有可显示的内容"]
  else
    match dispatch renderers response_data with
    | Ret ws => ws
    | Raise e =>
        [st_error ("可视化渲染错误：" ++ exn_str e);
         st_expander "原始响应数据" [st_json response_data]]
    end.

End Visualizer.

(* ================================================================== *)
(** ** Sample data *)

(** A pandas of text cells: a cell is a text or missing. *)
Definition text_cell_eqb (a b : option string) : bool :=
  match a, b with
  | Some x, Some y => String.eqb x y
  | None, None => true
  | _, _ => false
  end.

(** Values with their counts, in order of first appearance. *)
Fixpoint tally (l : list (option string)) (acc : list (string * nat))
  : list (string * nat) :=
  match l with
  | [] => acc
  | None :: r => tally r acc
  | Some x :: r =>
      tally r
        (if existsb (fun p => String.eqb (fst p) x) acc
         then map (fun p => if String.eqb (fst p) x
                            then (fst p, S (snd p)) else p) acc
         else acc +++ [(x, 1)])
  end.

#[local] Instance text_pandas : Pandas := {|
  cell := option string;
  isnull := fun c => match c with None => true | Some _ => false end;
  cell_eqb := text_cell_eqb;
  cell_str := fun c => match c with None => "nan" | Some s => s end;
  NA := None;
  describe := fun _ =>
    Raise (Exn (OtherError "TypeError") "unsupported operand type");
  value_counts := fun l => Ret (tally l [])
|}.

#[local] Instance plain_builtins : Builtins := {|
  py_repr := fun v => "<" ++ type_name v ++ ">";
  pie_shares := fun _ =>
    Raise (Exn (OtherError "ZeroDivisionError") "division by zero")
|}.

(** Two products over three months. *)
Definition sales_df : DataFrame := {|
  df_len := 3;
  df_columns :=
    [("product", {| dtype := "object";
                    values := [Some "A"; Some "B"; Some "A"] |});
     ("month", {| dtype := "object";
                  values := [Some "Jan"; Some "Jan"; Some "Feb"] |})]
|}.


(** Replies of the model used below. *)
Definition reply_with_prose : string :=
  unq "Sure, here you go: {'answer': 'total is 42'} Thanks!".

Definition reply_nested : string :=
  unq "Here is the chart: {'bar': {'columns': ['A', 'B'], 'data': [10, 20]}}".

Definition reply_answer_and_bar : string :=
  unq "{'answer': 'ok', 'bar': {'columns': ['A', 'B'], 'data': [10]}}".

Definition reply_big_table : string :=
  unq "{'table': {'columns': ['k'], 'data': [[1],[2],[3],[4],[5],[6],[7]]}}".

Definition num_list (l : list Z) : pyobj := PList (map PInt l).
Definition str_list (l : list string) : pyobj := PList (map PStr l).

Definition big_table_payload : pyobj :=
  PDict [("columns", str_list ["k"]);
         ("data", PList (map (fun z => num_list [z]) [1; 2; 3; 4; 5; 6; 7]%Z))].


Definition scatter_payload : list (string * pyobj) :=
  [("x", num_list [1; 2; 3]%Z); ("y", num_list [4; 5; 6]%Z)].

(* ================================================================== *)
(** ** Measures and shapes used by the further properties *)

(** The number of objects ([dict]s) in a value, itself included. *)
Fixpoint dict_nodes (v : pyobj) : nat :=
  match v with
  | PList items =>
      (fix in_items (l : list pyobj) : nat :=
         match l with
         | [] => 0
         | x :: r => dict_nodes x + in_items r
         end) items
  | PDict entries =>
      S ((fix in_entries (l : list (string * pyobj)) : nat :=
            match l with
            | [] => 0
            | (_, x) :: r => dict_nodes x + in_entries r
            end) entries)
  | _ => 0
  end.

Definition items_nodes (l : list pyobj) : nat :=
  fold_right (fun x n => dict_nodes x + n) 0 l.

Definition entries_nodes (l : list (string * pyobj)) : nat :=
  fold_right (fun kv n => dict_nodes (snd kv) + n) 0 l.

(** The number of closing braces in a text. *)
Definition closes (s : list ascii) : nat :=
  List.length (filter (Ascii.eqb "}"%char) s).

(** What a scan that succeeds has used of the text: it has passed at
    least as many closing braces as the value has objects, beyond those
    counted in [base]. *)
Definition paid {A} (nodes : A -> nat) (base : nat) (s : list ascii)
  (r : scan A) : Prop :=
  match r with
  | Scanned v rest => nodes v + closes rest <= base + closes s
  | _ => True
  end.

(** Every match of either pattern starts with an opening brace and holds
    one closing brace, its last character. *)
Definition candidate_shape (c : string) : Prop :=
  closes (chars c) = 1 /\ exists r, chars c = "{"%char :: r.

Definition open_candidate (cur : option (list ascii)) : Prop :=
  forall acc, cur = Some acc ->
    closes acc = 0 /\ exists r, rev acc = "{"%char :: r.

(** An object with no object inside it, at any depth. *)
Definition flat_object (v : pyobj) : Prop :=
  exists d, v = PDict d /\ entries_nodes d = 0.

(** The two arrays a figure is drawn from. *)
Definition fig_arrays (fig : figure) : pyobj * pyobj :=
  match fig_data fig with
  | go_Bar x y _ _ => (x, y)
  | go_Scatter x y _ _ => (x, y)
  | go_Pie labels values _ => (labels, values)
  end.

(** Two arrays fit to be drawn: both non-empty, of one length. *)
Definition drawable (a b : pyobj) : Prop :=
  truthy a = true /\ truthy b = true
  /\ exists n, py_len a = Ret n /\ py_len b = Ret n.

(** [payload.get(key, [])] on an object. *)
Definition field (p : list (string * pyobj)) (key : string) : pyobj :=
  match dict_lookup key p with
  | Some x => x
  | None => PList []
  end.

Section Shown.
Context {pd : Pandas}.


End Shown.

(* ================================================================== *)
(** ** The pages of the application: [app.py] *)

(** What a page puts on the screen, in call order. The widgets of
    [render_response] are kept together as one element. *)
Inductive element :=
| page_markdown (body : string)
| page_text_area (label placeholder : string)
| page_button (label : string)
| page_spinner (label : string)
| page_render (ws : list widget)
| page_error (msg : string)
| page_warning (msg : string)
| page_expander (label : string) (body : list element)
| page_json (v : pyobj)
| page_text (body : string).

(** The dict [process_query] returns, as [st.json] is handed it. *)
Definition result_dict (r : QueryResult) : pyobj :=
  match r with
  | Success data raw_response =>
      PDict [("success", PBool true); ("data", data);
             ("raw_response", PStr raw_response)]
  | Failure error raw_response =>
      PDict [("success", PBool false); ("error", PStr error);
             ("raw_response", PStr raw_response)]
  end.

Definition no_data_notice : string :=
  unq "<div class='info-box'>请先在左侧上传数据文件或使用示例数据</div>".

Section App.
Context {pd : Pandas} {py : Builtins}.

(** [st.session_state.ai_agent]'s model. *)
Variable model : string -> outcome string.

(** The [try] of [show_ai_analysis]: the query, then its result or its
    failure; the [except] shows what the [try] raised. *)
Definition run_analysis (user_question : string) (df : DataFrame)
  : list element :=
  match process_query model user_question df with
  | Ret (Success data raw_response) =>
      [page_markdown "### 分析结果";
       page_render (render_response data);
       page_expander "调试信息"
         [page_json (result_dict (Success data raw_response))]]
  | Ret (Failure error raw_response) =>
      page_error ("分析失败：" ++ error)
      :: (if truthy (PStr raw_response)
          then [page_expander "原始响应" [page_text raw_response]]
          else [])
  | Raise e => [page_error ("处理过程中出现错误：" ++ exn_str e)]
  end.

(** [show_ai_analysis], for the dataset of the session (if any), the
    text in the question box and whether the button was pressed. *)
Definition show_ai_analysis (data : option DataFrame)
  (user_question : string) (analyze_button : bool) : list element :=
  page_markdown (unq "<h2 class='sub-header'>AI问答分析</h2>")
  :: match data with
     | None => [page_markdown no_data_notice]
     | Some df =>
         [page_markdown "### 提问区域";
          page_text_area "请输入您的问题：" "例如：各产品的销售额对比如何？";
          page_button "开始分析"]
         +++ (if analyze_button && truthy (PStr (py_strip user_question))
              then page_spinner "AI正在分析中..."
                   :: run_analysis user_question df
              else if analyze_button then [page_warning "请输入问题内容"]
              else [])
     end.

Definition enhanced_question (viz_question : string) : string :=
  "请为以下需求生成适当的可视化（柱状图、折线图、饼图、散点图或表格）："
  ++ viz_question.

(** The [try] of [show_data_visualization]. *)
Definition run_visualization (viz_question : string) (df : DataFrame)
  : list element :=
  match process_query model (enhanced_question viz_question) df with
  | Ret (Success data raw_response) =>
      [page_markdown "### 可视化结果";
       page_render (render_response data);
       page_expander "技术详情"
         [page_json (result_dict (Success data raw_response))]]
  | Ret (Failure error raw_response) =>
      [page_error ("可视化生成失败：" ++ error)]
  | Raise e => [page_error ("可视化过程中出现错误：" ++ exn_str e)]
  end.

Definition show_data_visualization (data : option DataFrame)
  (viz_question : string) (viz_button : bool) : list element :=
  page_markdown (unq "<h2 class='sub-header'>数据可视化</h2>")
  :: match data with
     | None => [page_markdown no_data_notice]
     | Some df =>
         [page_markdown "### 可视化需求";
          page_text_area "描述您想要的可视化内容："
                         "例如：生成各产品销售额的柱状图";
          page_button "生成图表"]
         +++ (if viz_button && truthy (PStr (py_strip viz_question))
              then page_spinner "正在生成可视化..."
                   :: run_visualization viz_question df
              else if viz_button then [page_warning "请描述您的可视化需求"]
              else [])
     end.

End App.

(* ================================================================== *)
(** ** Cleaning and parsing an uploaded file: [FileHandler] *)

(** [max_rows = 10000] *)
Definition max_rows : nat := 100 * 100.

Definition encodings : list string := ["utf-8"; "gbk"; "gb2312"; "latin-1"].

Definition is_UnicodeDecodeError (e : exn) : bool :=
  match exn_cls e with
  | OtherError name => String.eqb name "UnicodeDecodeError"
  | _ => false
  end.

Section FileHandler.
Context {pd : Pandas}.

(** The row at position [i] holds missing values only. *)
Definition row_is_empty (df : DataFrame) (i : nat) : bool :=
  forallb (fun col => isnull (iloc (snd col) i)) (df_columns df).

Definition column_is_empty (s : Series) : bool := forallb isnull (values s).

(** The frame made of the rows at the given positions, with a fresh
    default index. *)
Definition take_rows (rows : list nat) (s : Series) : Series :=
  {| dtype := dtype s; values := map (iloc s) rows |}.

Definition select_rows (rows : list nat) (df : DataFrame) : DataFrame :=
  {| df_len := List.length rows;
     df_columns :=
       map (fun col => (fst col, take_rows rows (snd col))) (df_columns df) |}.

(** [df.dropna(axis=0, how='all')] followed by the re-indexing of
    [reset_index(drop=True)] *)
Definition dropna_rows (df : DataFrame) : DataFrame :=
  select_rows (filter (fun i => negb (row_is_empty df i)) (index df)) df.

(** [df.dropna(axis=1, how='all')] *)
Definition dropna_columns (df : DataFrame) : DataFrame :=
  {| df_len := df_len df;
     df_columns :=
       filter (fun col => negb (column_is_empty (snd col))) (df_columns df) |}.

(** [df.columns = df.columns.astype(str).str.strip()] *)
Definition strip_column_names (df : DataFrame) : DataFrame :=
  {| df_len := df_len df;
     df_columns :=
       map (fun col => (py_strip (fst col), snd col)) (df_columns df) |}.

(** [df.head(k)] *)
Definition df_head (k : nat) (df : DataFrame) : DataFrame :=
  select_rows (head_index k df) df.

(** [_clean_dataframe]: the cleaned frame and the warning shown when it
    was cut. The operations raise nothing on a frame of scalars, so the
    [except] branch (which returns the frame as it came) is not
    reached. *)
Definition _clean_dataframe (df : DataFrame) : DataFrame * list widget :=
  let df := strip_column_names (dropna_columns (dropna_rows df)) in
  if (max_rows <? df_len df)%nat
  then (df_head max_rows df,
        [st_warning ("数据量较大，仅显示前" ++ str_nat max_rows ++ "行")])
  else (df, []).

(** [pd.read_csv(uploaded_file, encoding=encoding)] after [seek(0)], and
    [pd.read_excel(uploaded_file)]. *)
Variable read_csv : string -> outcome DataFrame.
Variable read_excel : outcome DataFrame.

(** The loop over [encodings]: the first encoding that reads gives the
    cleaned frame; a [UnicodeDecodeError] moves on, and so does any
    other exception unless the encoding is the last of the list, where
    it is raised again. *)
Fixpoint try_encodings (todo : list string)
  : outcome (option (DataFrame * list widget)) :=
  match todo with
  | [] => Ret None
  | encoding :: rest =>
      match read_csv encoding with
      | Ret df => Ret (Some (_clean_dataframe df))
      | Raise e =>
          if is_UnicodeDecodeError e then try_encodings rest
          else if String.eqb encoding (last encodings "") then Raise e
          else try_encodings rest
      end
  end.

(** [_parse_file]: the frame or [None], and what was shown. *)
Definition _parse_file (file_extension : string)
  : option DataFrame * list widget :=
  match
    (if String.eqb file_extension "csv" then try_encodings encodings
     else if str_in file_extension ["xlsx"; "xls"] then
       df <- read_excel ;; Ret (Some (_clean_dataframe df))
     else Ret None)
  with
  | Ret (Some (df, shown)) => (Some df, shown)
  | Ret None => (None, [])
  | Raise e => (None, [st_error ("文件解析错误：" ++ exn_str e)])
  end.

End FileHandler.


(* ------------------------------------------------------------------ *)
(** *** [upload_file] *)

(** [self.supported_formats] and [self.max_file_size_mb] *)
Definition supported_formats : list string := ["csv"; "xlsx"; "xls"].
Definition max_file_size_mb : nat := 200.

(** What [upload_file] shows below the uploader: the widgets of
    [_parse_file], and its own [st.success] or [st.error]. *)
Inductive notice :=
| on_page (w : widget)
| st_success (msg : string).

(** [s.split(sep)[-1]]: what follows the last [sep], or all of [s]. *)
Definition last_part (sep : ascii) (s : string) : string :=
  text (fold_left (fun acc c => if Ascii.eqb c sep then [] else acc +++ [c])
                  (chars s) []).

Section Upload.
Context {pd : Pandas}.

(** What [st.file_uploader] returns when a file was chosen: its name,
    the number of bytes of [getvalue()], and what pandas reads from
    it. *)
Record UploadedFile := {
  file_name : string;
  file_size : N;
  file_read_csv : string -> outcome DataFrame;
  file_read_excel : outcome DataFrame
}.

(** [str.lower] *)
Variable lower : string -> string.

Definition file_extension (f : UploadedFile) : string :=
  lower (last_part "."%char (file_name f)).

(** [len(uploaded_file.getvalue()) / (1024 * 1024) > self.max_file_size_mb].
    The quotient is a float, exact for a length below 2^53 and rounded
    monotonically above, so it exceeds 200 exactly when the length
    exceeds 200 * 2^20. *)
Definition too_large (f : UploadedFile) : bool :=
  (N.of_nat max_file_size_mb * (1024 * 1024) <? file_size f)%N.

(** [df.shape[0]] and [df.shape[1]] in the success line. *)
Definition upload_success (df : DataFrame) : notice :=
  st_success ("文件上传成功！数据维度：" ++ str_nat (df_len df) ++ "行 × "
              ++ str_nat (List.length (df_columns df)) ++ "列").

(** [upload_file], for what the uploader returned. Nothing in the [try]
    raises ([_parse_file] catches its own exceptions), so its [except]
    is not reached. *)
Definition upload_file (uploaded_file : option UploadedFile)
  : option DataFrame * list notice :=
  match uploaded_file with
  | None => (None, [])
  | Some f =>
      if too_large f then
        (None, [on_page (st_error ("文件大小超过限制（"
                                   ++ str_nat max_file_size_mb ++ "MB）"))])
      else
        match _parse_file (file_read_csv f) (file_read_excel f)
                          (file_extension f) with
        | (Some df, ws) => (Some df, map on_page ws +++ [upload_success df])
        | (None, ws) =>
            (None, map on_page ws
                   +++ [on_page (st_error "文件解析失败，请检查文件格式")])
        end
  end.

End Upload.
(* ================================================================== *)
(** ** Further sample data *)


Definition good_bar_payload : list (string * pyobj) :=
  [("columns", str_list ["A"; "B"]); ("data", num_list [10; 20]%Z)].


Definition labelled_scatter_payload : list (string * pyobj) :=
  [("x", num_list [1; 2]%Z); ("y", num_list [3; 4]%Z);
   ("labels", str_list ["a"; "b"])].


Definition answer_model : string -> outcome string :=
  fun _ => Ret (unq " {'answer': 'ok'} ").


Definition failing_model : string -> outcome string :=
  fun _ => Raise (Exn (OtherError "ConnectionError") "connection timed out").

(** A frame with an empty row, an empty column and a padded name. *)
Definition ragged_df : DataFrame := {|
  df_len := 3;
  df_columns :=
    [(" name ", {| dtype := "object";
                   values := [Some "a"; None; Some "b"] |});
     ("empty", {| dtype := "object"; values := [None; None; None] |})]
|}.

(** A reader that accepts gbk only. *)
Definition gbk_reader : string -> outcome DataFrame :=
  fun encoding =>
    if String.eqb encoding "gbk" then Ret ragged_df
    else Raise (Exn (OtherError "UnicodeDecodeError") "invalid start byte").
(* ================================================================== *)
(** * Properties *)

(** ** Rewriting with the built-in operations *)

Lemma bind_ret {A B} (a : A) (k : A -> outcome B) : bind (Ret a) k = k a.
Proof. reflexivity. Qed.

Lemma dict_has_some k d v : dict_lookup k d = Some v -> dict_has k d = true.
Proof. unfold dict_has. now intros ->. Qed.

Lemma dict_has_none k d : dict_lookup k d = None -> dict_has k d = false.
Proof. unfold dict_has. now intros ->. Qed.

Lemma py_in_dict_some k d v :
  dict_lookup k d = Some v -> py_in k (PDict d) = Ret true.
Proof. intros H. simpl. now rewrite (dict_has_some _ _ _ H). Qed.

Lemma py_in_dict_none k d :
  dict_lookup k d = None -> py_in k (PDict d) = Ret false.
Proof. intros H. simpl. now rewrite (dict_has_none _ _ H). Qed.

Lemma py_getitem_dict k d v :
  dict_lookup k d = Some v -> py_getitem (PDict d) k = Ret v.
Proof. intros H. simpl. now rewrite H. Qed.

Lemma py_get_dict_some k d v dflt :
  dict_lookup k d = Some v -> py_get (PDict d) k dflt = Ret v.
Proof. intros H. simpl. now rewrite H. Qed.

Lemma py_get_dict_none k d dflt :
  dict_lookup k d = None -> py_get (PDict d) k dflt = Ret dflt.
Proof. intros H. simpl. now rewrite H. Qed.

(** ** The decoder's budget *)

Lemma skip_ws_length s : List.length (skip_ws s) <= List.length s.
Proof.
  induction s as [|c r IH]; simpl; [lia|].
  destruct (is_json_ws c); simpl; lia.
Qed.

Lemma is_prefix_length p : forall s,
  is_prefix p s = true -> List.length p <= List.length s.
Proof.
  induction p as [|a p IH]; intros [|b s]; simpl; try lia; try discriminate.
  intros H. apply andb_prop in H as [_ H]. apply IH in H. lia.
Qed.

Lemma chars_length lit : List.length (chars lit) = String.length lit.
Proof. induction lit; simpl; [reflexivity | now f_equal]. Qed.

Lemma eat_length lit s r :
  eat lit s = Some r -> List.length r + String.length lit = List.length s.
Proof.
  unfold eat. destruct (is_prefix (chars lit) s) eqn:Hp; [|discriminate].
  intros [= <-]. apply is_prefix_length in Hp.
  rewrite chars_length in Hp. rewrite length_skipn. lia.
Qed.

Lemma span_digits_length s : forall ds rest,
  span_digits s = (ds, rest) ->
  List.length ds + List.length rest = List.length s.
Proof.
  induction s as [|c r IH]; simpl; intros ds rest.
  - intros [= <- <-]. reflexivity.
  - destruct (is_digit c).
    + destruct (span_digits r) as [ds' rest'].
      intros [= <- <-]. specialize (IH _ _ eq_refl). simpl. lia.
    + intros [= <- <-]. reflexivity.
Qed.

(** Takes the head [match] or [if] of a hypothesis apart. *)
Ltac break_in H :=
  match type of H with
  | (let (_, _) := ?x in _) = _ => destruct x eqn:?
  | (if ?b then _ else _) = _ => destruct b eqn:?
  | match ?x with _ => _ end = _ => destruct x eqn:?
  end.

Ltac break_all :=
  repeat match goal with
    | H : _ |- _ => break_in H; try discriminate
    end.

Ltac pair_eqs :=
  repeat match goal with
    | E : (_, _) = (_, _) |- _ => injection E as ? ?; subst
    end.

Ltac span_facts :=
  repeat match goal with
    | H : span_digits _ = (_, _) |- _ => apply span_digits_length in H
    end.

Lemma number_sign_length s sg s1 :
  number_sign s = (sg, s1) -> List.length s1 <= List.length s.
Proof.
  unfold number_sign. intros H. repeat break_in H;
    injection H as <- <-; simpl; lia.
Qed.

Lemma number_integer_length s ds s2 :
  number_integer s = Some (ds, s2) -> List.length s2 < List.length s.
Proof.
  unfold number_integer. intros H. destruct s as [|c r]; [discriminate|].
  destruct (Ascii.eqb c "0"%char); [injection H as <- <-; simpl; lia|].
  destruct (is_digit c) eqn:Hd; [|discriminate].
  injection H as H. simpl in H. rewrite Hd in H.
  destruct (span_digits r) as [ds' r'] eqn:Hs. injection H as <- <-.
  apply span_digits_length in Hs. simpl. lia.
Qed.

Lemma number_fraction_length s f s3 :
  number_fraction s = (f, s3) -> List.length s3 <= List.length s.
Proof.
  unfold number_fraction. intros H.
  repeat break_in H; try (injection H as <- <-; simpl; lia).
  simpl tl in *. span_facts. injection H as <- <-. simpl in *. lia.
Qed.

Lemma number_exponent_length s x s4 :
  number_exponent s = (x, s4) -> List.length s4 <= List.length s.
Proof.
  unfold number_exponent. intros H.
  break_all; span_facts; pair_eqs; simpl in *; lia.
Qed.

Lemma match_number_shorter s v rest :
  match_number s = Some (v, rest) -> List.length rest < List.length s.
Proof.
  unfold match_number. intros H.
  destruct (number_sign s) as [sg s1] eqn:H1.
  destruct (number_integer s1) as [[ds s2]|] eqn:H2; [|discriminate].
  destruct (number_fraction s2) as [f s3] eqn:H3.
  destruct (number_exponent s3) as [x s4] eqn:H4.
  apply number_sign_length in H1. apply number_integer_length in H2.
  apply number_fraction_length in H3. apply number_exponent_length in H4.
  destruct f, x; injection H as _ <-; lia.
Qed.

Lemma scanstring_no_depth start : forall n s acc,
  List.length s <= n -> scanstring start s acc <> ScanDepth.
Proof.
  induction n as [|n IH]; intros s acc Hn.
  - destruct s; [discriminate | simpl in Hn; lia].
  - destruct s as [|c r]; [discriminate|]. intros H. simpl in H.
    cbv zeta in H.
    repeat (break_in H; try discriminate; simpl in Hn);
      (eapply IH; [|exact H]; simpl; lia).
Qed.

Lemma scanstring_shorter start : forall n s acc str rest,
  List.length s <= n ->
  scanstring start s acc = Scanned str rest ->
  List.length rest < List.length s.
Proof.
  induction n as [|n IH]; intros s acc str rest Hn H.
  - destruct s; [discriminate | simpl in Hn; lia].
  - destruct s as [|c r]; [discriminate|]. simpl in H. cbv zeta in H.
    repeat (break_in H; try discriminate; simpl in Hn);
      try (injection H as <- <-; simpl; lia);
      (apply IH in H; simpl in *; lia).
Qed.

Lemma scan_ok_weaken {A} s s' (r : scan A) :
  scan_ok s' r -> List.length s' <= List.length s -> scan_ok s r.
Proof. destruct r; simpl; [lia | trivial | trivial]. Qed.

Lemma scan_budget : forall fuel,
  (forall s, 2 * List.length s + 1 <= fuel -> scan_ok s (scan_once fuel s))
  /\ (forall acc s, 2 * List.length s + 2 <= fuel ->
        scan_ok s (object_members fuel acc s))
  /\ (forall acc s, 2 * List.length s + 2 <= fuel ->
        scan_ok s (array_items fuel acc s)).
Proof.
  induction fuel as [|fuel (IHv & IHo & IHa)].
  - repeat split; intros; lia.
  - split; [|split].
    + intros s Hs. destruct s as [|c r]; [exact I|].
      cbn [scan_once]. simpl List.length in Hs.
      pose proof (skip_ws_length r) as Hw.
      destruct (Ascii.eqb c dquote).
      { destruct (scanstring (c :: r) r []) as [str rest| |] eqn:E.
        - apply (scanstring_shorter _ _ _ _ _ _ (le_n _)) in E.
          simpl. lia.
        - exact I.
        - exact (scanstring_no_depth _ _ _ _ (le_n _) E). }
      destruct (Ascii.eqb c "{"%char).
      { destruct (eat "}" (skip_ws r)) as [rest|] eqn:E.
        - apply eat_length in E. simpl in *. lia.
        - apply (scan_ok_weaken _ (skip_ws r));
            [apply IHo; lia | simpl; lia]. }
      destruct (Ascii.eqb c "["%char).
      { destruct (eat "]" (skip_ws r)) as [rest|] eqn:E.
        - apply eat_length in E. simpl in *. lia.
        - apply (scan_ok_weaken _ (skip_ws r));
            [apply IHa; lia | simpl; lia]. }
      repeat match goal with
        | |- scan_ok _ (match eat ?lit ?s with _ => _ end) =>
            let E := fresh "E" in
            destruct (eat lit s) as [?|] eqn:E;
            [apply eat_length in E; simpl in *; lia|]
        end.
      destruct (match_number (c :: r)) as [[v rest]|] eqn:Hnum;
        [|exact I].
      apply match_number_shorter in Hnum. exact Hnum.
    + intros acc s Hs. destruct s as [|q r]; [exact I|].
      cbn [object_members]. simpl List.length in Hs.
      destruct (Ascii.eqb q dquote); [|exact I].
      destruct (scanstring (q :: r) r []) as [key r1| |] eqn:E;
        [| exact I | exact (scanstring_no_depth _ _ _ _ (le_n _) E)].
      apply (scanstring_shorter _ _ _ _ _ _ (le_n _)) in E.
      pose proof (skip_ws_length r1).
      destruct (eat ":" (skip_ws r1)) as [r2|] eqn:E2; [|exact I].
      apply eat_length in E2. simpl in E2.
      pose proof (skip_ws_length r2).
      pose proof (IHv (skip_ws r2) ltac:(lia)) as Hv.
      destruct (scan_once fuel (skip_ws r2)) as [v r3| |];
        cbn [scan_ok] in Hv |- *; [| exact I | exact Hv].
      pose proof (skip_ws_length r3).
      destruct (eat "}" (skip_ws r3)) as [rest|] eqn:E3.
      { apply eat_length in E3. simpl in *. lia. }
      destruct (eat "," (skip_ws r3)) as [r4|] eqn:E4; [|exact I].
      apply eat_length in E4. simpl in E4.
      pose proof (skip_ws_length r4).
      apply (scan_ok_weaken _ (skip_ws r4));
        [apply IHo; lia | simpl; lia].
    + intros acc s Hs. cbn [array_items].
      pose proof (IHv s ltac:(lia)) as Hv.
      destruct (scan_once fuel s) as [v r1| |];
        cbn [scan_ok] in Hv |- *; [| exact I | exact Hv].
      pose proof (skip_ws_length r1).
      destruct (eat "]" (skip_ws r1)) as [rest|] eqn:E3.
      { apply eat_length in E3. simpl in *. lia. }
      destruct (eat "," (skip_ws r1)) as [r2|] eqn:E4; [|exact I].
      apply eat_length in E4. simpl in E4.
      pose proof (skip_ws_length r2).
      apply (scan_ok_weaken _ (skip_ws r2));
        [apply IHa; lia | simpl; lia].
Qed.

(** The budget [json_loads] gives the scanner is never used up: the
    decoder returns a value or raises a [JSONDecodeError]. *)
Lemma json_loads_raises_decode_error doc e :
  json_loads doc = Raise e -> is_JSONDecodeError e = true.
Proof.
  unfold json_loads.
  destruct (has_bom (chars doc)); [now intros [= <-]|].
  pose proof (skip_ws_length (chars doc)) as Hw.
  pose proof (proj1 (scan_budget (S (2 * List.length (chars doc))))
                (skip_ws (chars doc)) ltac:(lia)) as Hok.
  destruct (scan_once _ _) as [v rest| |]; cbn [scan_ok] in Hok.
  - destruct (skip_ws rest); [discriminate | now intros [= <-]].
  - now intros [= <-].
  - contradiction.
Qed.


(** ** The salvage loop *)

Lemma first_parse_app l1 l2 :
  first_parse (l1 +++ l2) =
  match first_parse l1 with
  | Ret None => first_parse l2
  | r => r
  end.
Proof.
  induction l1 as [|m l1 IH]; simpl; [reflexivity|].
  destruct (json_loads m) as [v|e]; [reflexivity|].
  destruct (is_JSONDecodeError e); [exact IH | reflexivity].
Qed.

Lemma first_parse_skips pre rest :
  Forall refused pre -> first_parse (pre +++ rest) = first_parse rest.
Proof.
  induction 1 as [|m pre [e [He Hd]] _ IH]; simpl; [reflexivity|].
  now rewrite He, Hd.
Qed.

Lemma extract_patterns_in_order s :
  _extract_json_from_text s =
  match first_parse (re_findall BraceFree s) with
  | Ret None => first_parse (re_findall BraceLazy s)
  | r => r
  end.
Proof.
  unfold _extract_json_from_text, json_patterns. cbn [extract_with].
  destruct (first_parse (re_findall BraceFree s)) as [[v|]|e];
    cbn [bind]; try reflexivity.
  destruct (first_parse (re_findall BraceLazy s)) as [[w|]|e]; reflexivity.
Qed.

Lemma first_parse_returns l : exists r, first_parse l = Ret r.
Proof.
  induction l as [|m l [r IH]]; simpl; [eauto|].
  destruct (json_loads m) as [v|e] eqn:E; [eauto|].
  now rewrite (json_loads_raises_decode_error _ _ E), IH; eauto.
Qed.

Lemma extract_returns s : exists r, _extract_json_from_text s = Ret r.
Proof.
  rewrite extract_patterns_in_order.
  destruct (first_parse_returns (re_findall BraceFree s)) as [[v|] ->];
    [eauto|].
  apply first_parse_returns.
Qed.

Section Properties.
Context {pd : Pandas} {py : Builtins}.

(* ------------------------------------------------------------------ *)
(** ** The orchestrator never raises *)

(** C1. For every model, question and dataset, [process_query] returns
    a result and raises nothing. Whenever the body of its [try] raises
    an exception [e] -- in particular when the model invocation raises
    [e] -- the result is the failure whose message is the
    processing-error prefix followed by [str(e)], with an empty raw
    reply. *)
Theorem process_query_never_raises
  (model : string -> outcome string) (q : string) (df : DataFrame) :
  (exists r, process_query model q df = Ret r)
  /\ (forall e, process_query_body model q df = Raise e ->
        process_query model q df = Ret (Failure (processing_error e) ""))
  /\ (forall e, model (full_prompt q df) = Raise e ->
        process_query model q df
        = Ret (Failure ("AI处理错误: " ++ exn_str e) "")).
Proof.
  unfold process_query, try_except. repeat split.
  - destruct (process_query_body model q df) as [r|e]; eauto.
  - now intros e ->.
  - intros e He. unfold process_query_body. now rewrite He.
Qed.

(** In the model the model invocation is the only source of such an
    exception: parsing, salvage and the check raise nothing that reaches
    the outer handler. (The interpreter's recursion limit, which a
    deeply nested reply could hit inside [json.loads], is not modelled.) *)
Lemma body_raises_only_from_model model q df e :
  process_query_body model q df = Raise e ->
  model (full_prompt q df) = Raise e.
Proof.
  unfold process_query_body.
  destruct (model (full_prompt q df)) as [content|e']; [|now intros [= ->]].
  rewrite bind_ret.
  destruct (json_loads (py_strip content)) as [result|e'] eqn:Hj.
  - destruct (_validate_data_consistency result df); discriminate.
  - rewrite (json_loads_raises_decode_error _ _ Hj).
    destruct (extract_returns (py_strip content)) as [[v|] ->];
      rewrite bind_ret; [|discriminate].
    destruct (truthy v && _validate_data_consistency v df); discriminate.
Qed.

(* ------------------------------------------------------------------ *)
(** ** Salvage *)

Lemma strip_reply_with_prose : py_strip reply_with_prose = reply_with_prose.
Proof. vm_compute. reflexivity. Qed.

Lemma loads_reply_with_prose :
  json_loads reply_with_prose
  = Raise (Exn JSONDecodeError "Expecting value: line 1 column 1 (char 0)").
Proof. vm_compute. reflexivity. Qed.

(** C2. The salvage step tries the bracket-delimited substrings in order
    and returns the first one that parses: candidates refused by the
    decoder are skipped and nothing after the first accepted candidate
    is tried. The reply with prose around [{"answer": "total is 42"}]
    does not parse directly, salvage yields exactly that object, and the
    query succeeds with it. *)
Theorem salvage_first_success :
  (forall s,
      _extract_json_from_text s
      = first_parse (re_findall BraceFree s +++ re_findall BraceLazy s))
  /\ (forall pre m post v,
        Forall refused pre -> json_loads m = Ret v ->
        first_parse (pre +++ m :: post) = Ret (Some v))
  /\ refused reply_with_prose
  /\ re_findall BraceFree reply_with_prose = [unq "{'answer': 'total is 42'}"]
  /\ _extract_json_from_text reply_with_prose
     = Ret (Some (PDict [("answer", PStr "total is 42")]))
  /\ (forall model q df,
        model (full_prompt q df) = Ret reply_with_prose ->
        process_query model q df
        = Ret (Success (PDict [("answer", PStr "total is 42")])
                       reply_with_prose)).
Proof.
  split; [|split; [|split; [|split; [|split]]]].
  - intros s. rewrite extract_patterns_in_order, first_parse_app.
    reflexivity.
  - intros pre m post v Hpre Hm.
    rewrite (first_parse_skips pre (m :: post) Hpre). simpl. now rewrite Hm.
  - eexists. split; [apply loads_reply_with_prose | reflexivity].
  - vm_compute. reflexivity.
  - vm_compute. reflexivity.
  - intros model q df Hm.
    unfold process_query, process_query_body. rewrite Hm, bind_ret.
    rewrite strip_reply_with_prose, loads_reply_with_prose.
    vm_compute. reflexivity.
Qed.

(* ------------------------------------------------------------------ *)
(** ** The consistency check *)





Lemma validate_table d df payload :
  dict_lookup "table" d = Some payload ->
  _validate_data_consistency (PDict d) df =
  match payload with
  | PDict p =>
      match dict_lookup "data" p with
      | Some rows =>
          match py_len rows with
          | Ret k => negb (df_len df * 2 <? k)%nat
          | Raise _ => true
          end
      | None => true
      end
  | _ => true
  end.
Proof.
  intros Ht. unfold _validate_data_consistency, validate_body.
  rewrite (py_in_dict_some _ _ _ Ht), bind_ret.
  rewrite (py_getitem_dict _ _ _ Ht), bind_ret.
  destruct payload as [| b | z | f | s | l | p]; try reflexivity.
  - cbn [py_in bind]. destruct (is_substring _ _); reflexivity.
  - cbn [py_in bind]. destruct (existsb _ _); reflexivity.
  - cbn [py_in bind]. unfold dict_has.
    destruct (dict_lookup "data" p) as [rows|] eqn:Hd; [|reflexivity].
    rewrite (py_getitem_dict _ _ _ Hd), bind_ret.
    destruct (py_len rows) as [k|e]; [|reflexivity].
    rewrite bind_ret. destruct (df_len df * 2 <? k)%nat; reflexivity.
Qed.

(** The chart check on the payload it reads. *)
Ltac chart_tail payload :=
  destruct payload as [| ? | ? | ? | ? | ? | p]; try reflexivity;
  [ cbn [py_in bind]; destruct (is_substring _ _); [|reflexivity];
    cbn [bind py_in]; destruct (is_substring _ _); reflexivity
  | cbn [py_in bind]; destruct (existsb _ _); [|reflexivity];
    cbn [bind py_in]; destruct (existsb _ _); reflexivity
  | cbn [py_in bind]; unfold dict_has;
    let Hd := fresh "Hd" in
    let Hk := fresh "Hk" in
    destruct (dict_lookup "data" p) as [data|] eqn:Hd; [|reflexivity];
    cbn [bind py_in]; unfold dict_has;
    destruct (dict_lookup "columns" p) as [columns|] eqn:Hk;
      [|reflexivity];
    rewrite (py_getitem_dict _ _ _ Hd), (py_getitem_dict _ _ _ Hk);
    cbn [bind];
    destruct (py_len data) as [n|]; [|reflexivity];
    cbn [bind];
    destruct (py_len columns) as [k|]; [|reflexivity];
    cbn [bind];
    destruct (n =? k)%nat; [|reflexivity];
    cbn [negb andb bind];
    match goal with
    | |- context [(?m * 2 <? n)%nat] => destruct (m * 2 <? n)%nat
    end; reflexivity ].

Lemma validate_chart d df payload :
  dict_lookup "table" d = None ->
  chart_payload d = Some payload ->
  _validate_data_consistency (PDict d) df =
  match payload with
  | PDict p =>
      match dict_lookup "data" p, dict_lookup "columns" p with
      | Some data, Some columns =>
          match py_len data, py_len columns with
          | Ret n, Ret k =>
              (n =? k)%nat && negb (max_unique_values df * 2 <? n)%nat
          | _, _ => true
          end
      | _, _ => true
      end
  | _ => true
  end.
Proof.
  intros Ht Hc. unfold _validate_data_consistency, validate_body.
  rewrite (py_in_dict_none _ _ Ht), bind_ret.
  unfold chart_payload in Hc. cbv zeta.
  destruct (dict_lookup "bar" d) as [b|] eqn:Hb.
  - injection Hc as ->.
    rewrite (py_in_dict_some _ _ _ Hb). cbn [bind].
    rewrite (py_getitem_dict _ _ _ Hb), bind_ret.
    chart_tail payload.
  - rewrite (py_in_dict_none _ _ Hb). cbn [bind].
    rewrite (py_in_dict_some _ _ _ Hc). cbn [bind].
    rewrite (py_getitem_dict _ _ _ Hc), bind_ret.
    chart_tail payload.
Qed.

(** The direct-parse branch of [process_query]. *)
Lemma process_query_parsed model q df content result :
  model (full_prompt q df) = Ret content ->
  json_loads (py_strip content) = Ret result ->
  process_query model q df =
  Ret (if _validate_data_consistency result df
       then Success result (py_strip content)
       else Failure consistency_error (py_strip content)).
Proof.
  intros Hm Hj. unfold process_query, process_query_body.
  rewrite Hm, bind_ret, Hj.
  destruct (_validate_data_consistency result df); reflexivity.
Qed.

(** C3. For a parsed reply object with a ['table'] key and a dataset of
    [n] rows, the check rejects the reply exactly when the table's
    payload is an object whose ['data'] has a length and that length is
    greater than [2 * n]; a table of at most [2 * n] data rows passes.
    On the direct-parse path a rejected reply makes [process_query]
    return the failure with the consistency-error message, an accepted
    one the success. *)
Theorem table_rejected_iff_too_long d payload df :
  dict_lookup "table" d = Some payload ->
  (_validate_data_consistency (PDict d) df = false <->
   exists p rows k,
     payload = PDict p /\ dict_lookup "data" p = Some rows
     /\ py_len rows = Ret k /\ 2 * df_len df < k)
  /\ (forall p rows,
        payload = PDict p -> dict_lookup "data" p = Some (PList rows) ->
        List.length rows <= 2 * df_len df ->
        _validate_data_consistency (PDict d) df = true)
  /\ (forall model q content,
        model (full_prompt q df) = Ret content ->
        json_loads (py_strip content) = Ret (PDict d) ->
        process_query model q df =
        Ret (if _validate_data_consistency (PDict d) df
             then Success (PDict d) (py_strip content)
             else Failure consistency_error (py_strip content))).
Proof.
  intros Ht. rewrite (validate_table d df payload Ht). repeat split.
  - destruct payload as [| b | z | f | s | l | p]; try discriminate.
    destruct (dict_lookup "data" p) as [rows|] eqn:Hd; [|discriminate].
    destruct (py_len rows) as [k|e] eqn:Hk; [|discriminate].
    intros H. exists p, rows, k. repeat split; trivial.
    apply Bool.negb_false_iff, Nat.ltb_lt in H. lia.
  - intros (p & rows & k & -> & Hd & Hk & Hlt). rewrite Hd, Hk.
    apply Bool.negb_false_iff, Nat.ltb_lt. lia.
  - intros p rows -> Hd Hle. rewrite Hd. cbn [py_len].
    apply Bool.negb_true_iff, Nat.ltb_ge. lia.
  - intros model q content Hm Hj.
    rewrite <- (validate_table d df payload Ht).
    now apply process_query_parsed.
Qed.


(** C5. Whenever the body of the check raises an exception, the check
    answers [True]: the reply is treated as valid. On the direct-parse
    path the query then succeeds with that reply. *)
Theorem check_fails_open ai_result df e :
  validate_body ai_result df = Raise e ->
  _validate_data_consistency ai_result df = true
  /\ (forall model q content,
        model (full_prompt q df) = Ret content ->
        json_loads (py_strip content) = Ret ai_result ->
        process_query model q df
        = Ret (Success ai_result (py_strip content))).
Proof.
  intros He.
  assert (Hv : _validate_data_consistency ai_result df = true)
    by (unfold _validate_data_consistency; now rewrite He).
  split; [exact Hv|].
  intros model q content Hm Hj.
  now rewrite (process_query_parsed _ _ _ _ _ Hm Hj), Hv.
Qed.

(* ------------------------------------------------------------------ *)
(** ** The renderer *)

Lemma truthy_dict_lookup k d v :
  dict_lookup k d = Some v -> truthy (PDict d) = true.
Proof. destruct d; [discriminate | reflexivity]. Qed.

(** Walks the [if]/[elif] chain of [render_response] with the lookups
    known in the context. *)
Ltac walk_chain :=
  unfold render_response;
  cbn [negb dispatch renderers];
  repeat match goal with
    | H : dict_lookup ?k ?d = None |- context [py_in ?k (PDict ?d)] =>
        rewrite (py_in_dict_none _ _ H); cbn [bind]
    | H : dict_lookup ?k ?d = Some _ |- context [py_in ?k (PDict ?d)] =>
        rewrite (py_in_dict_some _ _ _ H), ?(py_getitem_dict _ _ _ H);
        cbn [bind]
    end.

Lemma render_answer d v :
  dict_lookup "answer" d = Some v ->
  render_response (PDict d) = _render_text_answer v.
Proof.
  intros Ha. unfold render_response.
  rewrite (truthy_dict_lookup _ _ _ Ha). walk_chain. reflexivity.
Qed.

(** C6, as amended. A response object that is not empty is rendered by
    the branch of the first key present, in the order answer, table,
    bar, line, pie, scatter, and the branch is handed that key's payload
    only; in particular an object with both ['answer'] and ['table'] is
    rendered as the answer. A non-empty object with none of the six
    keys gives the unsupported-format warning. The empty object is
    stopped before the chain and gives the nothing-to-display warning. *)
Theorem render_first_matching_key (d : list (string * pyobj)) :
  map fst renderers = ["answer"; "table"; "bar"; "line"; "pie"; "scatter"]
  /\ (forall v,
        dict_lookup "answer" d = Some v ->
        render_response (PDict d) = _render_text_answer v)
  /\ (forall v,
        dict_lookup "answer" d = None ->
        dict_lookup "table" d = Some v ->
        render_response (PDict d) = _render_table v)
  /\ (forall v,
        dict_lookup "answer" d = None -> dict_lookup "table" d = None ->
        dict_lookup "bar" d = Some v ->
        render_response (PDict d) = _render_bar_chart v)
  /\ (forall v,
        dict_lookup "answer" d = None -> dict_lookup "table" d = None ->
        dict_lookup "bar" d = None ->
        dict_lookup "line" d = Some v ->
        render_response (PDict d) = _render_line_chart v)
  /\ (forall v,
        dict_lookup "answer" d = None -> dict_lookup "table" d = None ->
        dict_lookup "bar" d = None -> dict_lookup "line" d = None ->
        dict_lookup "pie" d = Some v ->
        render_response (PDict d) = _render_pie_chart v)
  /\ (forall v,
        dict_lookup "answer" d = None -> dict_lookup "table" d = None ->
        dict_lookup "bar" d = None -> dict_lookup "line" d = None ->
        dict_lookup "pie" d = None ->
        dict_lookup "scatter" d = Some v ->
        render_response (PDict d) = _render_scatter_chart v)
  /\ (forall a t,
        dict_lookup "answer" d = Some a -> dict_lookup "table" d = Some t ->
        render_response (PDict d) = _render_text_answer a)
  /\ (d <> [] ->
      (forall key, In key valid_keys -> dict_lookup key d = None) ->
      render_response (PDict d) = [st_warning "不支持的响应格式"])
  /\ (d = [] -> render_response (PDict d) = [st_warning "没有可显示的内容"]).
Proof.
  split; [reflexivity|].
  split; [apply render_answer|].
  split; [intros v Ha Ht; unfold render_response;
          rewrite (truthy_dict_lookup _ _ _ Ht); walk_chain; reflexivity|].
  split; [intros v Ha Ht Hb; unfold render_response;
          rewrite (truthy_dict_lookup _ _ _ Hb); walk_chain; reflexivity|].
  split; [intros v Ha Ht Hb Hl; unfold render_response;
          rewrite (truthy_dict_lookup _ _ _ Hl); walk_chain; reflexivity|].
  split; [intros v Ha Ht Hb Hl Hp; unfold render_response;
          rewrite (truthy_dict_lookup _ _ _ Hp); walk_chain; reflexivity|].
  split; [intros v Ha Ht Hb Hl Hp Hs; unfold render_response;
          rewrite (truthy_dict_lookup _ _ _ Hs); walk_chain; reflexivity|].
  split; [intros a t Ha _; now apply render_answer|].
  split.
  - intros Hne Hnone.
    assert (Ha := Hnone "answer" ltac:(simpl; tauto)).
    assert (Ht := Hnone "table" ltac:(simpl; tauto)).
    assert (Hb := Hnone "bar" ltac:(simpl; tauto)).
    assert (Hl := Hnone "line" ltac:(simpl; tauto)).
    assert (Hp := Hnone "pie" ltac:(simpl; tauto)).
    assert (Hs := Hnone "scatter" ltac:(simpl; tauto)).
    unfold render_response.
    replace (truthy (PDict d)) with true
      by (destruct d; [congruence | reflexivity]).
    walk_chain. reflexivity.
  - intros ->. reflexivity.
Qed.

Lemma default_labels_from_one n :
  default_labels n
  = PList (map (fun i => PStr ("点" ++ str_nat i)) (seq 1 n)).
Proof.
  unfold default_labels. f_equal.
  rewrite <- seq_shift, map_map. apply map_ext.
  intros i. now rewrite Nat.add_1_r.
Qed.

(** C7, as amended. For a scatter payload whose [x] and [y] are lists of
    one length [n > 0], when ['labels'] is absent, or present with a
    length other than [n], the renderer shows no error: it draws the
    chart and its summary with the labels ["点1"; ...; "点n"], the
    character 点 followed by [i] for [i = 1..n]. *)
Theorem scatter_labels_defaulted d xs ys :
  dict_lookup "x" d = Some (PList xs) ->
  dict_lookup "y" d = Some (PList ys) ->
  xs <> [] ->
  List.length xs = List.length ys ->
  (dict_lookup "labels" d = None
   \/ exists v m, dict_lookup "labels" d = Some v
                  /\ py_len v = Ret m /\ m <> List.length xs) ->
  _render_scatter_chart (PDict d)
  = scatter_widgets (PList xs) (PList ys) (default_labels (List.length xs))
  /\ default_labels (List.length xs)
     = PList (map (fun i => PStr ("点" ++ str_nat i))
                  (seq 1 (List.length xs))).
Proof.
  intros Hx Hy Hne Hlen Hlab. split; [|apply default_labels_from_one].
  unfold _render_scatter_chart, show_or_error.
  rewrite (py_get_dict_some _ _ _ _ Hx), bind_ret.
  rewrite (py_get_dict_some _ _ _ _ Hy), bind_ret.
  assert (Htx : truthy (PList xs) = true)
    by (destruct xs; [congruence | reflexivity]).
  assert (Hty : truthy (PList ys) = true)
    by (destruct ys; [destruct xs; [congruence | discriminate] | reflexivity]).
  destruct Hlab as [Hnone | (v & m & Hsome & Hm & Hneq)].
  - rewrite (py_get_dict_none _ _ _ Hnone), bind_ret, Htx, Hty.
    cbn [negb orb py_len bind truthy]. rewrite Hlen, Nat.eqb_refl.
    reflexivity.
  - rewrite (py_get_dict_some _ _ _ _ Hsome), bind_ret, Htx, Hty.
    cbn [negb orb py_len bind]. rewrite Hlen, Nat.eqb_refl.
    cbn [negb]. destruct (truthy v); cbn [negb bind]; [|reflexivity].
    rewrite Hm, bind_ret. rewrite <- Hlen.
    apply Nat.eqb_neq in Hneq. rewrite Hneq. reflexivity.
Qed.

(** C10. The check looks at the ['bar'] payload of a reply that also has
    an ['answer'] key, although the renderer would show the answer and
    never read that payload: whenever such a reply has no ['table'] key
    and the lengths of the bar's ['data'] and ['columns'] differ, the
    check rejects it while the renderer shows it as the answer. The
    reply [{"answer": "ok", "bar": {"columns": ["A", "B"], "data": [10]}}]
    parses directly, [process_query] returns the consistency failure for
    it on every dataset, and the renderer would have shown "ok". *)
Theorem check_ignores_render_priority :
  (forall d df a p data columns n k,
      dict_lookup "answer" d = Some a ->
      dict_lookup "table" d = None ->
      dict_lookup "bar" d = Some (PDict p) ->
      dict_lookup "data" p = Some data ->
      dict_lookup "columns" p = Some columns ->
      py_len data = Ret n -> py_len columns = Ret k -> n <> k ->
      _validate_data_consistency (PDict d) df = false
      /\ render_response (PDict d) = _render_text_answer a)
  /\ json_loads reply_answer_and_bar
     = Ret (PDict [("answer", PStr "ok");
                   ("bar", PDict [("columns", str_list ["A"; "B"]);
                                  ("data", num_list [10%Z])])])
  /\ (forall model q df,
        model (full_prompt q df) = Ret reply_answer_and_bar ->
        process_query model q df
        = Ret (Failure consistency_error reply_answer_and_bar))
  /\ render_response
       (PDict [("answer", PStr "ok");
               ("bar", PDict [("columns", str_list ["A"; "B"]);
                              ("data", num_list [10%Z])])])
     = [st_info "分析结果: ok"].
Proof.
  split; [|split; [|split]].
  - intros d df a p data columns n k Ha Ht Hb Hd Hk Hn Hl Hneq. split.
    + assert (Hc : chart_payload d = Some (PDict p))
        by (unfold chart_payload; now rewrite Hb).
      rewrite (validate_chart d df _ Ht Hc), Hd, Hk, Hn, Hl.
      apply Nat.eqb_neq in Hneq. now rewrite Hneq.
    + now apply render_answer.
  - vm_compute. reflexivity.
  - intros model q df Hm.
    unfold process_query, process_query_body. rewrite Hm, bind_ret.
    replace (py_strip reply_answer_and_bar) with reply_answer_and_bar
      by (vm_compute; reflexivity).
    replace (json_loads reply_answer_and_bar)
      with (Ret (PDict [("answer", PStr "ok");
                        ("bar", PDict [("columns", str_list ["A"; "B"]);
                                       ("data", num_list [10%Z])])]))
      by (vm_compute; reflexivity).
    reflexivity.
  - reflexivity.
Qed.

(* ------------------------------------------------------------------ *)
(** ** The summarizer *)








(* ------------------------------------------------------------------ *)
(** ** Salvage of a nested object *)

(** C9. Every match of the brace-free pattern is tried before any match
    of the lazy pattern. For the reply made of prose and the tagged
    object [{"bar": {"columns": ["A", "B"], "data": [10, 20]}}], which
    does not parse directly, the brace-free pattern matches the inner
    object alone, so salvage returns the payload without its tag, not
    the tagged object, and the query succeeds with that payload. *)
Theorem salvage_returns_inner_object :
  (forall s,
      _extract_json_from_text s
      = match first_parse (re_findall BraceFree s) with
        | Ret None => first_parse (re_findall BraceLazy s)
        | r => r
        end)
  /\ refused reply_nested
  /\ re_findall BraceFree reply_nested
     = [unq "{'columns': ['A', 'B'], 'data': [10, 20]}"]
  /\ json_loads (unq "{'bar': {'columns': ['A', 'B'], 'data': [10, 20]}}")
     = Ret (PDict [("bar", PDict [("columns", str_list ["A"; "B"]);
                                  ("data", num_list [10; 20]%Z)])])
  /\ _extract_json_from_text reply_nested
     = Ret (Some (PDict [("columns", str_list ["A"; "B"]);
                         ("data", num_list [10; 20]%Z)]))
  /\ (forall model q df,
        model (full_prompt q df) = Ret reply_nested ->
        process_query model q df
        = Ret (Success (PDict [("columns", str_list ["A"; "B"]);
                               ("data", num_list [10; 20]%Z)])
                       reply_nested)).
Proof.
  split; [exact extract_patterns_in_order|].
  split; [eexists; split; [vm_compute; reflexivity | reflexivity]|].
  split; [vm_compute; reflexivity|].
  split; [vm_compute; reflexivity|].
  split; [vm_compute; reflexivity|].
  intros model q df Hm.
  unfold process_query, process_query_body. rewrite Hm, bind_ret.
  replace (py_strip reply_nested) with reply_nested
    by (vm_compute; reflexivity).
  replace (json_loads reply_nested)
    with (@Raise pyobj
            (Exn JSONDecodeError "Expecting value: line 1 column 1 (char 0)"))
    by (vm_compute; reflexivity).
  cbn [is_JSONDecodeError exn_cls].
  replace (_extract_json_from_text reply_nested)
    with (Ret (Some (PDict [("columns", str_list ["A"; "B"]);
                            ("data", num_list [10; 20]%Z)])))
    by (vm_compute; reflexivity).
  reflexivity.
Qed.

End Properties.

(* ================================================================== *)
(** * The properties on the sample data *)

(** A table of seven rows is rejected for the dataset of three rows. *)
Lemma table_rejected_witness :
  json_loads reply_big_table = Ret (PDict [("table", big_table_payload)])
  /\ _validate_data_consistency (PDict [("table", big_table_payload)]) sales_df
     = false.
Proof.
  split; [vm_compute; reflexivity|].
  apply (table_rejected_iff_too_long
           [("table", big_table_payload)] big_table_payload sales_df eq_refl).
  eexists _, _, 7. repeat split. simpl. lia.
Defined.



(** A reply that is a number makes the check raise, and passes. *)
Lemma check_fails_open_witness :
  validate_body (PInt 5) sales_df
  = Raise (Exn TypeError "argument of type 'int' is not iterable")
  /\ _validate_data_consistency (PInt 5) sales_df = true.
Proof.
  split; [reflexivity|].
  exact (proj1 (check_fails_open (PInt 5) sales_df _ eq_refl)).
Defined.

(** C6 as stated fails: the empty object has none of the six keys and
    gets the nothing-to-display warning, not the unsupported-format
    one. *)
Lemma empty_response_not_unsupported :
  ~ (forall d : list (string * pyobj),
        (forall key, In key valid_keys -> dict_lookup key d = None) ->
        render_response (PDict d) = [st_warning "不支持的响应格式"]).
Proof.
  intros H. specialize (H [] (fun _ _ => eq_refl)).
  vm_compute in H. discriminate H.
Qed.

(** An object with an answer and a table shows the answer only. *)
Lemma render_answer_over_table_witness :
  render_response
    (PDict [("table", big_table_payload); ("answer", PStr "42")])
  = [st_info "分析结果: 42"].
Proof.
  exact (proj1 (proj2 (render_first_matching_key
                         [("table", big_table_payload); ("answer", PStr "42")]))
               (PStr "42") eq_refl).
Defined.

(** C7 as stated fails: the labels drawn for [x = [1, 2, 3]] and
    [y = [4, 5, 6]] are "点1", "点2", "点3", not "point-1", "point-2",
    "point-3". *)
Lemma scatter_labels_not_point_dash :
  _render_scatter_chart (PDict scatter_payload)
  = scatter_widgets (num_list [1; 2; 3]%Z) (num_list [4; 5; 6]%Z)
                    (str_list ["点1"; "点2"; "点3"])
  /\ _render_scatter_chart (PDict scatter_payload)
     <> scatter_widgets (num_list [1; 2; 3]%Z) (num_list [4; 5; 6]%Z)
                        (str_list ["point-1"; "point-2"; "point-3"]).
Proof.
  split; [vm_compute; reflexivity|].
  vm_compute. discriminate.
Qed.

Lemma scatter_labels_witness :
  _render_scatter_chart (PDict scatter_payload)
  = scatter_widgets (num_list [1; 2; 3]%Z) (num_list [4; 5; 6]%Z)
                    (default_labels 3).
Proof.
  refine (proj1 (scatter_labels_defaulted scatter_payload
                   (map PInt [1; 2; 3]%Z) (map PInt [4; 5; 6]%Z)
                   eq_refl eq_refl _ eq_refl (or_introl eq_refl))).
  discriminate.
Defined.


(* ================================================================== *)
(** * Further properties of the orchestrator *)

Section OrchestratorFacts.
Context {pd : Pandas}.

Lemma process_query_returns model q df :
  exists r, process_query model q df = Ret r.
Proof.
  unfold process_query, try_except.
  destruct (process_query_body model q df); eauto.
Qed.

(** X1. The check can reject a reply only on the strength of a ['table'],
    ['bar'] or ['line'] payload that is an object with a ['data'] field
    that has a length. Every other reply -- an answer, a pie, a scatter,
    a list, a text, a number -- passes. *)
Theorem check_rejects_only_sized_data ai_result df :
  _validate_data_consistency ai_result df = false ->
  exists d key p data n,
    ai_result = PDict d
    /\ In key ["table"; "bar"; "line"]
    /\ dict_lookup key d = Some (PDict p)
    /\ dict_lookup "data" p = Some data
    /\ py_len data = Ret n.
Proof.
  intros H. destruct ai_result as [| b | z | f | s | l | d];
    try discriminate H.
  - unfold _validate_data_consistency, validate_body in H.
    cbn [py_in bind py_getitem] in H.
    repeat (match type of H with
            | context [if ?b then _ else _] => destruct b
            end; cbn [bind] in H); discriminate H.
  - unfold _validate_data_consistency, validate_body in H.
    cbn [py_in bind py_getitem] in H.
    repeat (match type of H with
            | context [if ?b then _ else _] => destruct b
            end; cbn [bind] in H); discriminate H.
  - destruct (dict_lookup "table" d) as [payload|] eqn:Ht.
    + rewrite (validate_table d df payload Ht) in H.
      destruct payload as [| | | | | | p]; try discriminate H.
      destruct (dict_lookup "data" p) as [rows|] eqn:Hd; [|discriminate H].
      destruct (py_len rows) as [k|] eqn:Hk; [|discriminate H].
      exists d, "table", p, rows, k. simpl. tauto.
    + destruct (chart_payload d) as [payload|] eqn:Hc.
      * rewrite (validate_chart d df payload Ht Hc) in H.
        destruct payload as [| | | | | | p]; try discriminate H.
        destruct (dict_lookup "data" p) as [data|] eqn:Hd;
          [|discriminate H].
        destruct (dict_lookup "columns" p) as [columns|];
          [|discriminate H].
        destruct (py_len data) as [n|] eqn:Hn; [|discriminate H].
        unfold chart_payload in Hc.
        destruct (dict_lookup "bar" d) as [b|] eqn:Hb.
        -- injection Hc as ->. exists d, "bar", p, data, n. simpl. tauto.
        -- exists d, "line", p, data, n. simpl. tauto.
      * unfold chart_payload in Hc.
        destruct (dict_lookup "bar" d) eqn:Hb; [discriminate Hc|].
        unfold _validate_data_consistency, validate_body in H.
        rewrite (py_in_dict_none _ _ Ht), (py_in_dict_none _ _ Hb),
          (py_in_dict_none _ _ Hc) in H.
        discriminate H.
Qed.






End OrchestratorFacts.

(* ================================================================== *)
(** * What salvage can return *)

Lemma dict_nodes_list l : dict_nodes (PList l) = items_nodes l.
Proof.
  cbn [dict_nodes]. unfold items_nodes.
  induction l as [|x r IH]; [reflexivity|].
  cbn [fold_right]. now f_equal.
Qed.

Lemma dict_nodes_dict d : dict_nodes (PDict d) = S (entries_nodes d).
Proof.
  cbn [dict_nodes]. f_equal. unfold entries_nodes.
  induction d as [|[k x] r IH]; [reflexivity|].
  cbn [fold_right snd]. now f_equal.
Qed.

Lemma items_nodes_snoc acc v :
  items_nodes (acc +++ [v]) = items_nodes acc + dict_nodes v.
Proof.
  unfold items_nodes.
  induction acc as [|x r IH]; cbn [fold_right app] in *; lia.
Qed.

Lemma entries_nodes_set key v acc :
  entries_nodes (dict_set key v acc) <= entries_nodes acc + dict_nodes v.
Proof.
  unfold entries_nodes.
  induction acc as [|[k x] r IH]; cbn [dict_set].
  - cbn [fold_right snd]. lia.
  - destruct (String.eqb key k); cbn [fold_right snd] in *; lia.
Qed.

Lemma entries_nodes_lookup k d x :
  dict_lookup k d = Some x -> dict_nodes x <= entries_nodes d.
Proof.
  unfold entries_nodes.
  induction d as [|[k' y] r IH]; cbn [dict_lookup]; [discriminate|].
  cbn [fold_right snd].
  destruct (String.eqb k k').
  - intros [= ->]. lia.
  - intros H. apply IH in H. lia.
Qed.

Lemma closes_app a b : closes (a +++ b) = closes a + closes b.
Proof. unfold closes. now rewrite filter_app, length_app. Qed.

Lemma closes_cons_le c r x : x <= closes r -> x <= closes (c :: r).
Proof.
  unfold closes. cbn [filter]. destruct (Ascii.eqb "}"%char c);
    cbn [List.length]; lia.
Qed.

Lemma closes_skip_ws s : closes (skip_ws s) <= closes s.
Proof.
  induction s as [|c r IH]; cbn [skip_ws]; [lia|].
  destruct (is_json_ws c); [now apply closes_cons_le | lia].
Qed.

Lemma is_prefix_split p : forall s,
  is_prefix p s = true -> s = p +++ skipn (List.length p) s.
Proof.
  induction p as [|a p IH]; intros [|b s]; cbn; try reflexivity;
    try discriminate.
  intros H. apply andb_prop in H as [Hab H].
  apply Ascii.eqb_eq in Hab. subst b. f_equal. now apply IH.
Qed.

Lemma eat_closes lit s r :
  eat lit s = Some r -> closes r + closes (chars lit) = closes s.
Proof.
  unfold eat. destruct (is_prefix (chars lit) s) eqn:Hp; [|discriminate].
  intros [= <-]. apply is_prefix_split in Hp.
  rewrite chars_length in Hp. rewrite Hp at 2. rewrite closes_app. lia.
Qed.

Lemma span_digits_closes s : forall ds rest,
  span_digits s = (ds, rest) -> closes rest <= closes s.
Proof.
  induction s as [|c r IH]; cbn [span_digits]; intros ds rest.
  - intros [= <- <-]. lia.
  - destruct (is_digit c).
    + destruct (span_digits r) as [ds' rest'].
      intros [= <- <-]. apply closes_cons_le. now apply (IH ds').
    + intros [= <- <-]. lia.
Qed.

(** Closes a goal [x <= closes (a :: b :: ... :: r)] from a bound on
    [closes r] in the context. *)
Ltac climb :=
  first [ eassumption | apply Nat.le_refl
        | apply closes_cons_le; climb ].

Ltac span_closes :=
  repeat match goal with
    | H : span_digits _ = (_, _) |- _ => apply span_digits_closes in H
    end.

Lemma number_sign_closes s sg s1 :
  number_sign s = (sg, s1) -> closes s1 <= closes s.
Proof.
  unfold number_sign. intros H. break_all; pair_eqs; climb.
Qed.

Lemma number_integer_closes s ds s2 :
  number_integer s = Some (ds, s2) -> closes s2 <= closes s.
Proof.
  unfold number_integer. intros H. destruct s as [|c r]; [discriminate|].
  remember (span_digits (c :: r)) as sp eqn:Hsp.
  destruct (Ascii.eqb c "0"%char); [injection H as <- <-; climb|].
  destruct (is_digit c); [|discriminate].
  injection H as ->. symmetry in Hsp.
  now apply span_digits_closes in Hsp.
Qed.

Lemma number_fraction_closes s f s3 :
  number_fraction s = (f, s3) -> closes s3 <= closes s.
Proof.
  unfold number_fraction. intros H.
  break_all; cbn [tl] in *; span_closes; pair_eqs; climb.
Qed.

Lemma number_exponent_closes s x s4 :
  number_exponent s = (x, s4) -> closes s4 <= closes s.
Proof.
  unfold number_exponent. intros H.
  break_all; span_closes; pair_eqs; climb.
Qed.

Lemma match_number_closes s v rest :
  match_number s = Some (v, rest) ->
  dict_nodes v = 0 /\ closes rest <= closes s.
Proof.
  unfold match_number. intros H.
  destruct (number_sign s) as [sg s1] eqn:H1.
  destruct (number_integer s1) as [[ds s2]|] eqn:H2; [|discriminate].
  destruct (number_fraction s2) as [f s3] eqn:H3.
  destruct (number_exponent s3) as [x s4] eqn:H4.
  apply number_sign_closes in H1. apply number_integer_closes in H2.
  apply number_fraction_closes in H3. apply number_exponent_closes in H4.
  destruct f, x; injection H as <- <-; split; try reflexivity; lia.
Qed.

Lemma scanstring_closes start : forall n s acc str rest,
  List.length s <= n ->
  scanstring start s acc = Scanned str rest ->
  closes rest <= closes s.
Proof.
  induction n as [|n IH]; intros s acc str rest Hn H.
  - destruct s; [discriminate | simpl in Hn; lia].
  - destruct s as [|c r]; [discriminate|]. simpl in H. cbv zeta in H.
    repeat (break_in H; try discriminate; simpl in Hn);
      try (injection H as <- <-; climb);
      (apply IH in H; [climb | simpl in *; lia]).
Qed.

Lemma paid_weaken {A} (nodes : A -> nat) base base' s s' (r : scan A) :
  paid nodes base' s' r -> base' + closes s' <= base + closes s ->
  paid nodes base s r.
Proof. destruct r; cbn [paid]; [lia | trivial | trivial]. Qed.

Lemma scan_pays_closes : forall fuel,
  (forall s, paid dict_nodes 0 s (scan_once fuel s))
  /\ (forall acc s,
        paid dict_nodes (entries_nodes acc) s (object_members fuel acc s))
  /\ (forall acc s,
        paid dict_nodes (items_nodes acc) s (array_items fuel acc s)).
Proof.
  induction fuel as [|fuel (IHv & IHo & IHa)].
  - repeat split; intros; exact I.
  - split; [|split].
    + intros s. destruct s as [|c r]; [exact I|].
      cbn [scan_once].
      pose proof (closes_skip_ws r) as Hw.
      assert (Hr : closes r <= closes (c :: r))
        by (apply closes_cons_le; lia).
      destruct (Ascii.eqb c dquote).
      { destruct (scanstring (c :: r) r []) as [str rest| |] eqn:E;
          try exact I.
        apply (scanstring_closes _ _ _ _ _ _ (le_n _)) in E.
        cbn [paid dict_nodes]. lia. }
      destruct (Ascii.eqb c "{"%char).
      { destruct (eat "}" (skip_ws r)) as [rest|] eqn:E.
        - apply eat_closes in E. cbn [paid]. rewrite dict_nodes_dict.
          change (closes (chars "}")) with 1 in E.
          cbn [entries_nodes fold_right]. lia.
        - apply (paid_weaken _ _ (entries_nodes []) _ (skip_ws r));
            [apply IHo | cbn [entries_nodes fold_right]; lia]. }
      destruct (Ascii.eqb c "["%char).
      { destruct (eat "]" (skip_ws r)) as [rest|] eqn:E.
        - apply eat_closes in E. cbn [paid dict_nodes]. lia.
        - apply (paid_weaken _ _ (items_nodes []) _ (skip_ws r));
            [apply IHa | cbn [items_nodes fold_right]; lia]. }
      repeat match goal with
        | |- paid _ _ _ (match eat ?lit ?s with _ => _ end) =>
            let E := fresh "E" in
            destruct (eat lit s) as [?|] eqn:E;
            [apply eat_closes in E; cbn [paid dict_nodes]; lia|]
        end.
      destruct (match_number (c :: r)) as [[v rest]|] eqn:Hnum;
        [|exact I].
      apply match_number_closes in Hnum. cbn [paid]. lia.
    + intros acc s. destruct s as [|q r]; [exact I|].
      cbn [object_members].
      assert (Hr : closes r <= closes (q :: r))
        by (apply closes_cons_le; lia).
      destruct (Ascii.eqb q dquote); [|exact I].
      destruct (scanstring (q :: r) r []) as [key r1| |] eqn:E;
        try exact I.
      apply (scanstring_closes _ _ _ _ _ _ (le_n _)) in E.
      pose proof (closes_skip_ws r1).
      destruct (eat ":" (skip_ws r1)) as [r2|] eqn:E2; [|exact I].
      apply eat_closes in E2. change (closes (chars ":")) with 0 in E2.
      pose proof (closes_skip_ws r2).
      pose proof (IHv (skip_ws r2)) as Hv.
      destruct (scan_once fuel (skip_ws r2)) as [v r3| |];
        cbn [paid] in Hv |- *; try exact I.
      pose proof (closes_skip_ws r3).
      pose proof (entries_nodes_set key v acc) as Hset.
      destruct (eat "}" (skip_ws r3)) as [rest|] eqn:E3.
      { apply eat_closes in E3. change (closes (chars "}")) with 1 in E3.
        cbn [paid]. rewrite dict_nodes_dict. lia. }
      destruct (eat "," (skip_ws r3)) as [r4|] eqn:E4; [|exact I].
      apply eat_closes in E4. change (closes (chars ",")) with 0 in E4.
      pose proof (closes_skip_ws r4).
      apply (paid_weaken _ _ (entries_nodes (dict_set key v acc)) _
               (skip_ws r4)); [apply IHo | lia].
    + intros acc s. cbn [array_items].
      pose proof (IHv s) as Hv.
      destruct (scan_once fuel s) as [v r1| |];
        cbn [paid] in Hv |- *; try exact I.
      pose proof (closes_skip_ws r1).
      pose proof (items_nodes_snoc acc v) as Hsnoc.
      destruct (eat "]" (skip_ws r1)) as [rest|] eqn:E3.
      { apply eat_closes in E3. change (closes (chars "]")) with 0 in E3.
        cbn [paid]. rewrite dict_nodes_list. lia. }
      destruct (eat "," (skip_ws r1)) as [r2|] eqn:E4; [|exact I].
      apply eat_closes in E4. change (closes (chars ",")) with 0 in E4.
      pose proof (closes_skip_ws r2).
      apply (paid_weaken _ _ (items_nodes (acc +++ [v])) _ (skip_ws r2));
        [apply IHa | lia].
Qed.

(** A document that parses holds at least one closing brace for each
    object of the value. *)
Lemma json_loads_pays_closes doc v :
  json_loads doc = Ret v -> dict_nodes v <= closes (chars doc).
Proof.
  unfold json_loads. destruct (has_bom (chars doc)); [discriminate|].
  pose proof (closes_skip_ws (chars doc)) as Hw.
  pose proof (proj1 (scan_pays_closes (S (2 * List.length (chars doc))))
                (skip_ws (chars doc))) as Hp.
  destruct (scan_once _ _) as [v' rest| |]; try discriminate.
  cbn [paid] in Hp. destruct (skip_ws rest); [|discriminate].
  intros [= <-]. lia.
Qed.

Lemma object_members_dict : forall fuel acc s v rest,
  object_members fuel acc s = Scanned v rest -> exists d, v = PDict d.
Proof.
  induction fuel as [|fuel IH]; intros acc s v rest H; [discriminate|].
  cbn [object_members] in H.
  repeat (break_in H; try discriminate).
  all: try (injection H as <- _; eauto; fail).
  all: eapply IH; exact H.
Qed.

(** A document that starts with an opening brace parses to an object or
    not at all. *)
Lemma json_loads_object doc r v :
  chars doc = "{"%char :: r -> json_loads doc = Ret v ->
  exists d, v = PDict d.
Proof.
  unfold json_loads. intros Hs. rewrite Hs.
  destruct (has_bom _); [discriminate|].
  change (skip_ws ("{"%char :: r)) with ("{"%char :: r).
  change (scan_once (S (2 * List.length ("{"%char :: r))) ("{"%char :: r))
    with (match eat "}" (skip_ws r) with
          | Some rest => Scanned (PDict []) rest
          | None =>
              object_members (2 * List.length ("{"%char :: r)) []
                (skip_ws r)
          end).
  destruct (eat "}" (skip_ws r)) as [rest|].
  - destruct (skip_ws rest); [|discriminate]. intros [= <-]. eauto.
  - destruct (object_members _ _ _) as [v' rest| |] eqn:E;
      try discriminate.
    destruct (skip_ws rest); [|discriminate]. intros [= <-].
    eapply object_members_dict. exact E.
Qed.

Lemma chars_text l : chars (text l) = l.
Proof. apply list_ascii_of_string_of_list_ascii. Qed.

Lemma closes_rev l : closes (rev l) = closes l.
Proof.
  induction l as [|c r IH]; [reflexivity|].
  cbn [rev]. rewrite closes_app, IH. unfold closes. cbn [filter].
  destruct (Ascii.eqb "}"%char c); cbn [List.length]; lia.
Qed.

Lemma open_candidate_start : open_candidate (Some ["{"%char]).
Proof. intros acc [= <-]. split; [reflexivity | now exists []]. Qed.

Lemma open_candidate_none : open_candidate None.
Proof. intros acc H. discriminate H. Qed.

Lemma open_candidate_extend c cur :
  Ascii.eqb c "}"%char = false ->
  open_candidate cur -> open_candidate (option_map (cons c) cur).
Proof.
  intros Hc Hcur acc H. destruct cur as [acc'|]; [|discriminate H].
  injection H as <-. destruct (Hcur acc' eq_refl) as [H0 [r Hr]]. split.
  - unfold closes in *. cbn [filter]. rewrite Ascii.eqb_sym, Hc. exact H0.
  - cbn [rev]. rewrite Hr. now exists (r +++ [c]).
Qed.

Lemma close_candidate acc :
  closes acc = 0 -> (exists r, rev acc = "{"%char :: r) ->
  candidate_shape (text (rev ("}"%char :: acc))).
Proof.
  intros H0 [r Hr]. unfold candidate_shape. rewrite chars_text. split.
  - rewrite closes_rev. unfold closes in *. cbn [filter Ascii.eqb].
    cbn. now rewrite H0.
  - cbn [rev]. rewrite Hr. now exists (r +++ ["}"%char]).
Qed.

Lemma findall_brace_free_shape s : forall cur,
  open_candidate cur ->
  Forall candidate_shape (findall_brace_free s cur).
Proof.
  induction s as [|c r IH]; intros cur Hcur; cbn [findall_brace_free];
    [constructor|].
  destruct (Ascii.eqb c "{"%char) eqn:Ho.
  - apply Ascii.eqb_eq in Ho. subst c. apply IH, open_candidate_start.
  - destruct (Ascii.eqb c "}"%char) eqn:Hc.
    + apply Ascii.eqb_eq in Hc. subst c.
      destruct cur as [acc|]; [|apply IH, open_candidate_none].
      constructor; [|apply IH, open_candidate_none].
      destruct (Hcur acc eq_refl). now apply close_candidate.
    + apply IH. now apply open_candidate_extend.
Qed.

Lemma findall_brace_lazy_shape s : forall cur,
  open_candidate cur ->
  Forall candidate_shape (findall_brace_lazy s cur).
Proof.
  induction s as [|c r IH]; intros cur Hcur; cbn [findall_brace_lazy];
    [constructor|].
  destruct cur as [acc|].
  - destruct (Ascii.eqb c "}"%char) eqn:Hc.
    + apply Ascii.eqb_eq in Hc. subst c.
      constructor; [|apply IH, open_candidate_none].
      destruct (Hcur acc eq_refl). now apply close_candidate.
    + apply IH.
      exact (open_candidate_extend c (Some acc) Hc Hcur).
  - destruct (Ascii.eqb c "{"%char) eqn:Ho; apply IH;
      [|apply open_candidate_none].
    apply Ascii.eqb_eq in Ho. subst c. apply open_candidate_start.
Qed.

Lemma re_findall_shape p s : Forall candidate_shape (re_findall p s).
Proof.
  destruct p; cbn [re_findall];
    [apply findall_brace_free_shape | apply findall_brace_lazy_shape];
    apply open_candidate_none.
Qed.

Lemma first_parse_some l v :
  first_parse l = Ret (Some v) -> exists c, In c l /\ json_loads c = Ret v.
Proof.
  induction l as [|m l IH]; cbn [first_parse]; [discriminate|].
  destruct (json_loads m) as [w|e] eqn:E.
  - intros [= <-]. exists m. split; [now left | exact E].
  - destruct (is_JSONDecodeError e); [|discriminate].
    intros H. destruct (IH H) as (c & Hin & Hc). exists c. split;
      [now right | exact Hc].
Qed.

Lemma candidate_parses_flat c v :
  candidate_shape c -> json_loads c = Ret v -> flat_object v.
Proof.
  intros [Hone [r Hr]] Hj.
  destruct (json_loads_object c r v Hr Hj) as [d ->].
  apply json_loads_pays_closes in Hj. rewrite dict_nodes_dict in Hj.
  exists d. split; [reflexivity | lia].
Qed.

Lemma extract_returns_flat s v :
  _extract_json_from_text s = Ret (Some v) -> flat_object v.
Proof.
  intros H. rewrite extract_patterns_in_order in H.
  assert (Hc : exists p c, In c (re_findall p s) /\ json_loads c = Ret v).
  { destruct (first_parse (re_findall BraceFree s)) as [[w|]|e] eqn:E.
    - injection H as ->. apply first_parse_some in E.
      destruct E as (c & Hin & Hc). now exists BraceFree, c.
    - apply first_parse_some in H.
      destruct H as (c & Hin & Hc). now exists BraceLazy, c.
    - discriminate H. }
  destruct Hc as (p & c & Hin & Hj).
  pose proof (re_findall_shape p s) as Hall.
  rewrite Forall_forall in Hall.
  exact (candidate_parses_flat c v (Hall c Hin) Hj).
Qed.

(** X5. Whatever salvage returns is an object that holds no other object:
    both patterns stop at the first closing brace, so a candidate has
    one closing brace only, and each object of a parsed value needs its
    own. In particular no value of a salvaged object is itself an
    object. *)
Theorem salvage_returns_flat_objects s v :
  _extract_json_from_text s = Ret (Some v) ->
  exists d, v = PDict d
    /\ entries_nodes d = 0
    /\ forall key x, dict_lookup key d = Some x ->
         dict_nodes x = 0 /\ forall p, x <> PDict p.
Proof.
  intros H. destruct (extract_returns_flat s v H) as (d & -> & Hflat).
  exists d. split; [reflexivity|]. split; [exact Hflat|].
  intros key x Hx. apply entries_nodes_lookup in Hx. split; [lia|].
  intros q ->. rewrite dict_nodes_dict in Hx. lia.
Qed.

Section SalvagePath.
Context {pd : Pandas}.



End SalvagePath.

(* ================================================================== *)
(** * Further properties of the renderer *)

Section RendererFacts.
Context {py : Builtins}.

(** Takes a hypothesis about the widgets of a renderer apart, along the
    renderer's tests. *)
Ltac crunch H :=
  unfold show_or_error, bind in H;
  repeat (match type of H with
          | context [match ?x with _ => _ end] =>
              lazymatch x with
              | context [match _ with _ => _ end] => fail
              | _ => destruct x eqn:?
              end
          end; cbn beta iota in H).

(** The cases of [In w [w1; ...; wn]], those of different constructors
    left out. *)
Ltac pick H :=
  cbn [In] in H; repeat destruct H as [H|H];
  try contradiction; try discriminate H.

Ltac both_truthy :=
  match goal with
  | E : negb (truthy ?a) || negb (truthy ?b) = false |- _ =>
      apply Bool.orb_false_elim in E; destruct E as [?Ha ?Hb];
      apply Bool.negb_false_iff in Ha; apply Bool.negb_false_iff in Hb
  end.

Ltac same_length :=
  repeat match goal with
    | E : negb (?n =? ?k)%nat = false |- _ =>
        apply Bool.negb_false_iff, Nat.eqb_eq in E
    | E1 : ?a = Ret ?n, E2 : ?a = Ret ?k |- _ =>
        rewrite E1 in E2; injection E2 as E2
    end; subst.

Lemma bar_chart_drawable v fig :
  In (st_plotly_chart fig) (_render_bar_chart v) ->
  drawable (fst (fig_arrays fig)) (snd (fig_arrays fig)).
Proof.
  unfold _render_bar_chart. intros H. crunch H; pick H.
  injection H as <-. cbn [fig_arrays fig_data fst snd].
  both_truthy. same_length. unfold drawable. eauto.
Qed.

Lemma line_chart_drawable v fig :
  In (st_plotly_chart fig) (_render_line_chart v) ->
  drawable (fst (fig_arrays fig)) (snd (fig_arrays fig)).
Proof.
  unfold _render_line_chart. intros H. crunch H; pick H.
  injection H as <-. cbn [fig_arrays fig_data fst snd].
  both_truthy. same_length. unfold drawable. eauto.
Qed.

Lemma pie_chart_drawable v fig :
  In (st_plotly_chart fig) (_render_pie_chart v) ->
  drawable (fst (fig_arrays fig)) (snd (fig_arrays fig)).
Proof.
  unfold _render_pie_chart. intros H. crunch H; pick H;
    injection H as <-; cbn [fig_arrays fig_data fst snd];
    both_truthy; same_length; unfold drawable; eauto.
Qed.

Lemma scatter_chart_drawable v fig :
  In (st_plotly_chart fig) (_render_scatter_chart v) ->
  drawable (fst (fig_arrays fig)) (snd (fig_arrays fig)).
Proof.
  unfold _render_scatter_chart, scatter_widgets. intros H. crunch H;
    pick H; injection H as <-; cbn [fig_arrays fig_data fst snd];
    both_truthy; same_length; unfold drawable; eauto.
Qed.

Lemma table_draws_no_chart v fig :
  ~ In (st_plotly_chart fig) (_render_table v).
Proof.
  unfold _render_table. intros H. crunch H; pick H.
Qed.

(** What the chain of [render_response] returns: the warning of its
    [else], or the widgets of one of the six renderers. *)
Lemma dispatch_cases v ws :
  dispatch renderers v = Ret ws ->
  ws = [st_warning "不支持的响应格式"]
  \/ exists key render payload,
       In (key, render) renderers /\ ws = render payload.
Proof.
  unfold renderers. cbn [dispatch]. unfold bind. intros H.
  repeat (match type of H with
          | context [match ?x with _ => _ end] =>
              lazymatch x with
              | context [match _ with _ => _ end] => fail
              | _ => destruct x eqn:?
              end
          end; cbn beta iota in H; try discriminate H);
    injection H as <-;
    first [ now left
          | right; do 3 eexists; split; [|reflexivity]; cbn [In]; tauto ].
Qed.

Lemma renderer_shows_something key render payload :
  In (key, render) renderers -> render payload <> [].
Proof.
  unfold renderers. cbn [In]. intros H.
  repeat destruct H as [H|H]; try contradiction;
    injection H as _ <-; intros E;
    unfold _render_text_answer, _render_table, _render_bar_chart,
      _render_line_chart, _render_pie_chart, _render_scatter_chart,
      scatter_widgets in E;
    crunch E; discriminate E.
Qed.

(** X7. Whatever it is handed, [render_response] shows at least one widget:
    a result, a notice or an error, never a blank page. *)
Theorem render_response_shows_something v : render_response v <> [].
Proof.
  unfold render_response. destruct (negb (truthy v)); [discriminate|].
  destruct (dispatch renderers v) as [ws|e] eqn:E; [|discriminate].
  destruct (dispatch_cases v ws E) as [->|(key & render & payload & Hin & ->)];
    [discriminate|].
  now apply (renderer_shows_something key).
Qed.

(** X8. A chart reaches the screen only when its two arrays are non-empty
    and of one length: every [st.plotly_chart] among the widgets of
    [render_response] was built from such a pair. *)
Theorem charts_only_from_matching_arrays v fig :
  In (st_plotly_chart fig) (render_response v) ->
  drawable (fst (fig_arrays fig)) (snd (fig_arrays fig)).
Proof.
  unfold render_response. destruct (negb (truthy v)); [intros H; pick H|].
  destruct (dispatch renderers v) as [ws|e] eqn:E; [|intros H; pick H].
  destruct (dispatch_cases v ws E) as [->|(key & render & payload & Hin & ->)];
    [intros H; pick H|].
  unfold renderers in Hin. cbn [In] in Hin.
  repeat destruct Hin as [Hin|Hin]; try contradiction;
    injection Hin as _ <-.
  - intros H. unfold _render_text_answer in H. pick H.
  - intros H. now apply table_draws_no_chart in H.
  - apply bar_chart_drawable.
  - apply line_chart_drawable.
  - apply pie_chart_drawable.
  - apply scatter_chart_drawable.
Qed.

End RendererFacts.

Section RendererCases.
Context {py : Builtins}.

Lemma py_get_field p key : py_get (PDict p) key (PList []) = Ret (field p key).
Proof. unfold field. cbn [py_get]. now destruct (dict_lookup key p). Qed.

(** Solves the equation of a renderer on an object payload from the
    facts about its fields in the context. *)
Ltac run_renderer :=
  unfold _render_table, _render_bar_chart, _render_line_chart,
    _render_pie_chart, _render_scatter_chart, show_or_error;
  rewrite !py_get_field;
  repeat first
    [ progress cbn [negb orb bind]
    | match goal with
      | H : truthy ?a = _ |- context [truthy ?a] => rewrite H
      | H : py_len ?a = _ |- context [py_len ?a] => rewrite H
      | H : (?n =? ?k)%nat = _ |- context [(?n =? ?k)%nat] => rewrite H
      end ];
  try reflexivity.

(** X9. A field that is missing counts as an empty list, and an empty (or
    otherwise false) field stops each renderer at its empty-data
    warning, before any length is compared and with nothing drawn. *)
Theorem empty_field_gives_empty_notice p :
  (truthy (field p "columns") = false \/ truthy (field p "data") = false ->
   _render_table (PDict p) = [st_warning "表格数据为空"]
   /\ _render_bar_chart (PDict p) = [st_warning "图表数据为空"]
   /\ _render_line_chart (PDict p) = [st_warning "图表数据为空"])
  /\ (truthy (field p "labels") = false \/ truthy (field p "values") = false ->
      _render_pie_chart (PDict p) = [st_warning "图表数据为空"])
  /\ (truthy (field p "x") = false \/ truthy (field p "y") = false ->
      _render_scatter_chart (PDict p) = [st_warning "图表数据为空"]).
Proof.
  split; [|split]; intros Hf; [repeat split| |];
    destruct Hf as [Hf|Hf]; run_renderer;
    match goal with
    | |- context [truthy ?a] => destruct (truthy a); reflexivity
    end.
Qed.

(** X10. Two non-empty fields of different lengths stop each chart renderer
    at its own mismatch error, with nothing drawn. *)
Theorem length_mismatch_gives_error p :
  (forall n k,
      truthy (field p "columns") = true -> truthy (field p "data") = true ->
      py_len (field p "columns") = Ret n -> py_len (field p "data") = Ret k ->
      n <> k ->
      _render_bar_chart (PDict p) = [st_error "列名和数据长度不匹配"]
      /\ _render_line_chart (PDict p) = [st_error "列名和数据长度不匹配"])
  /\ (forall n k,
        truthy (field p "labels") = true ->
        truthy (field p "values") = true ->
        py_len (field p "labels") = Ret n ->
        py_len (field p "values") = Ret k ->
        n <> k ->
        _render_pie_chart (PDict p) = [st_error "标签和数值长度不匹配"])
  /\ (forall n k,
        truthy (field p "x") = true -> truthy (field p "y") = true ->
        py_len (field p "x") = Ret n -> py_len (field p "y") = Ret k ->
        n <> k ->
        _render_scatter_chart (PDict p) = [st_error "X和Y数据长度不匹配"]).
Proof.
  split; [|split]; intros n k Ha Hb Hn Hk Hneq;
    apply Nat.eqb_neq in Hneq; [split| |]; run_renderer.
Qed.

Lemma firstn_palette n :
  List.length (firstn n color_palette) = Nat.min n 10.
Proof. now rewrite length_firstn. Qed.

(** X11. Two non-empty fields of one length [n] make the bar renderer draw
    the chart and its summary from exactly these arrays. The bars get
    the first [n] colours of the palette, so only ten when [n > 10]. *)
Theorem bar_chart_drawn p n :
  truthy (field p "columns") = true -> truthy (field p "data") = true ->
  py_len (field p "columns") = Ret n -> py_len (field p "data") = Ret n ->
  _render_bar_chart (PDict p)
  = [st_plotly_chart
       {| fig_data := go_Bar (field p "columns") (field p "data")
                             (firstn n color_palette) (field p "data");
          fig_title := "柱状图分析";
          fig_axes := Some ("类别", "数值") |};
     st_expander "数据详情"
       [st_dataframe (frame_of_dict [("类别", field p "columns");
                                     ("数值", field p "data")])]]
  /\ List.length (firstn n color_palette) = Nat.min n 10.
Proof.
  intros Ha Hb Hn Hk. split; [|apply firstn_palette].
  pose proof (Nat.eqb_refl n). run_renderer.
Qed.

(** X12. Non-empty labels whose length is that of [x] are drawn as given. *)
Theorem scatter_keeps_matching_labels p n :
  truthy (field p "x") = true -> truthy (field p "y") = true ->
  truthy (field p "labels") = true ->
  py_len (field p "x") = Ret n -> py_len (field p "y") = Ret n ->
  py_len (field p "labels") = Ret n ->
  _render_scatter_chart (PDict p)
  = scatter_widgets (field p "x") (field p "y") (field p "labels").
Proof.
  intros Hx Hy Hl Hn Hk Hm. pose proof (Nat.eqb_refl n). run_renderer.
Qed.

(** X13. A payload that is not an object stops each of the five renderers
    that read fields at a single error notice with the renderer's own
    prefix: nothing is drawn and no exception leaves the renderer. *)
Theorem non_object_payload_gives_error v :
  (forall p, v <> PDict p) ->
  exists msg,
    _render_table v = [st_error ("表格渲染错误：" ++ msg)]
    /\ _render_bar_chart v = [st_error ("柱状图渲染错误：" ++ msg)]
    /\ _render_line_chart v = [st_error ("折线图渲染错误：" ++ msg)]
    /\ _render_pie_chart v = [st_error ("饼图渲染错误：" ++ msg)]
    /\ _render_scatter_chart v = [st_error ("散点图渲染错误：" ++ msg)].
Proof.
  intros Hv.
  exists ("'" ++ type_name v ++ "' object has no attribute 'get'").
  destruct v; try (now repeat split). now destruct (Hv entries).
Qed.

End RendererCases.

Section RendererFormat.
Context {py : Builtins}.

(** Follows the [if]/[elif] chain of [render_response] with the lookups
    known in the context. *)
Ltac follow_chain :=
  unfold render_response;
  cbn [negb dispatch renderers];
  repeat match goal with
    | H : dict_lookup ?k ?d = None |- context [py_in ?k (PDict ?d)] =>
        rewrite (py_in_dict_none _ _ H); cbn [bind]
    | H : dict_lookup ?k ?d = Some _ |- context [py_in ?k (PDict ?d)] =>
        rewrite (py_in_dict_some _ _ _ H), ?(py_getitem_dict _ _ _ H);
        cbn [bind]
    end.

Lemma renderer_not_unsupported key render payload :
  In (key, render) renderers ->
  render payload <> [st_warning "不支持的响应格式"].
Proof.
  unfold renderers. cbn [In]. intros H.
  repeat destruct H as [H|H]; try contradiction;
    injection H as _ <-; intros E;
    unfold _render_text_answer, _render_table, _render_bar_chart,
      _render_line_chart, _render_pie_chart, _render_scatter_chart,
      scatter_widgets, show_or_error, bind in E;
    repeat (match type of E with
            | context [match ?x with _ => _ end] =>
                lazymatch x with
                | context [match _ with _ => _ end] => fail
                | _ => destruct x eqn:?
                end
            end; cbn beta iota in E);
    discriminate E.
Qed.

(** X14. [validate_response_format] and the renderer agree on objects: a
    non-empty object fails the format check exactly when
    [render_response] answers it with the unsupported-format warning. *)
Theorem format_check_agrees_with_renderer d :
  d <> [] ->
  (validate_response_format (PDict d) = false <->
   render_response (PDict d) = [st_warning "不支持的响应格式"]).
Proof.
  intros Hne.
  assert (Ht : truthy (PDict d) = true)
    by (destruct d; [congruence | reflexivity]).
  split.
  - intros H. cbn [validate_response_format valid_keys existsb] in H.
    repeat (apply Bool.orb_false_elim in H; destruct H as [?Hk H]).
    unfold dict_has in *.
    repeat match goal with
      | E : match dict_lookup ?k d with _ => _ end = false |- _ =>
          destruct (dict_lookup k d) eqn:?; [discriminate E | clear E]
      end.
    unfold render_response. rewrite Ht. follow_chain. reflexivity.
  - intros H. unfold render_response in H. rewrite Ht in H.
    cbn [negb] in H. unfold renderers in H.
    cbn [dispatch py_in py_getitem] in H. unfold dict_has in H.
    cbn [validate_response_format valid_keys existsb]. unfold dict_has.
    repeat match goal with
      | |- context [match dict_lookup ?k d with _ => _ end] =>
          destruct (dict_lookup k d) eqn:?
      end; try reflexivity; exfalso; cbn [bind] in H;
      refine (renderer_not_unsupported _ _ _ _ H);
      unfold renderers; cbn [In];
      repeat first [left; reflexivity | right].
Qed.

End RendererFormat.

(* ================================================================== *)
(** * Further properties of the summarizer *)

Section SummarizerFacts.
Context {pd : Pandas}.






End SummarizerFacts.

(* ================================================================== *)
(** * Properties of the pages *)

Section PageFacts.
Context {pd : Pandas} {py : Builtins}.

Lemma query_returns model q df : exists r, process_query model q df = Ret r.
Proof.
  unfold process_query, try_except.
  destruct (process_query_body model q df); eauto.
Qed.

(** X17. The handlers the two pages keep around [process_query] are never
    used: the query raises nothing, so neither page shows its own
    "error while processing" line, and what the [try] shows is never
    empty. *)
Theorem page_handlers_never_fire model q df :
  (forall e,
      run_analysis model q df
      <> [page_error ("处理过程中出现错误：" ++ exn_str e)])
  /\ (forall e,
        run_visualization model q df
        <> [page_error ("可视化过程中出现错误：" ++ exn_str e)])
  /\ run_analysis model q df <> []
  /\ run_visualization model q df <> [].
Proof.
  unfold run_analysis, run_visualization.
  destruct (query_returns model q df) as [r ->].
  destruct (query_returns model (enhanced_question q) df) as [r' ->].
  destruct r, r'; repeat split; try discriminate;
    intros e; destruct (truthy (PStr raw_response)); discriminate.
Qed.

(** X18. A fault of the model reaches the analysis page as one line, the
    analysis-failed prefix before the processing-error message and the
    fault's text, with no raw-reply expander (there is no reply); the
    visualization page likewise. *)
Theorem model_fault_on_page model q df e :
  model (full_prompt q df) = Raise e ->
  model (full_prompt (enhanced_question q) df) = Raise e ->
  run_analysis model q df
  = [page_error ("分析失败：AI处理错误: " ++ exn_str e)]
  /\ run_visualization model q df
     = [page_error ("可视化生成失败：AI处理错误: " ++ exn_str e)].
Proof.
  intros H1 H2. unfold run_analysis, run_visualization, process_query,
    process_query_body. now rewrite H1, H2.
Qed.


(** X20. A text answer goes through unchanged: when the reply parses
    directly to an object whose ['answer'] is a text and which has no
    ['table'], ['bar'] or ['line'] key, the analysis page shows that
    text after the result prefix, and the result dict in the debug
    expander. *)
Theorem text_answer_reaches_page model q df content d s :
  model (full_prompt q df) = Ret content ->
  json_loads (py_strip content) = Ret (PDict d) ->
  dict_lookup "answer" d = Some (PStr s) ->
  dict_lookup "table" d = None ->
  dict_lookup "bar" d = None ->
  dict_lookup "line" d = None ->
  run_analysis model q df
  = [page_markdown "### 分析结果";
     page_render [st_info ("分析结果: " ++ s)];
     page_expander "调试信息"
       [page_json (PDict [("success", PBool true); ("data", PDict d);
                          ("raw_response", PStr (py_strip content))])]].
Proof.
  intros Hm Hj Ha Ht Hb Hl. unfold run_analysis.
  rewrite (process_query_parsed model q df content (PDict d) Hm Hj).
  assert (Hv : _validate_data_consistency (PDict d) df = true).
  { unfold _validate_data_consistency, validate_body.
    now rewrite (py_in_dict_none _ _ Ht), (py_in_dict_none _ _ Hb),
      (py_in_dict_none _ _ Hl). }
  rewrite Hv, (render_answer d (PStr s) Ha). reflexivity.
Qed.

(** X21. Without a dataset, with the button not pressed, or with a question
    of whitespace only, the model is not consulted: the page is the
    same whatever the model would answer, and a pressed button over a
    blank question gives the warning to enter one. *)
Theorem blank_question_skips_model model model' data q pressed :
  data = None \/ pressed = false \/ py_strip q = "" ->
  show_ai_analysis model data q pressed
  = show_ai_analysis model' data q pressed
  /\ (forall df,
        data = Some df -> pressed = true ->
        exists shown,
          show_ai_analysis model data q pressed
          = shown +++ [page_warning "请输入问题内容"]).
Proof.
  intros H. unfold show_ai_analysis. split.
  - destruct H as [->|[->|Hq]]; try reflexivity;
      destruct data; try reflexivity.
    rewrite Hq. now rewrite Bool.andb_false_r.
  - intros df -> ->. destruct H as [H|[H|Hq]]; try discriminate.
    rewrite Hq. cbn [andb truthy String.eqb negb].
    eexists (_ :: _ :: _ :: [_]). reflexivity.
Qed.

End PageFacts.

(* ================================================================== *)
(** * Properties of the file handler *)

Section CleaningFacts.
Context {pd : Pandas}.










Lemma last_encoding : last encodings "" = "latin-1".
Proof. reflexivity. Qed.

(** X23. For a CSV file, [_parse_file] returns the cleaned frame of the
    first encoding, in the order utf-8, gbk, gb2312, latin-1, that
    [read_csv] accepts; whatever the earlier encodings raised is never
    shown. When all four fail, nothing is returned, and an error is
    shown only if the failure of the last encoding is not a
    [UnicodeDecodeError]. An extension other than csv, xlsx and xls
    returns nothing and shows nothing. *)
Theorem csv_encoding_fallback read_csv read_excel :
  (forall before encoding after df,
      encodings = before +++ encoding :: after ->
      (forall x, In x before -> exists e, read_csv x = Raise e) ->
      read_csv encoding = Ret df ->
      _parse_file read_csv read_excel "csv"
      = (Some (fst (_clean_dataframe df)), snd (_clean_dataframe df)))
  /\ (forall e,
        (forall x, In x encodings -> exists e', read_csv x = Raise e') ->
        read_csv "latin-1" = Raise e ->
        _parse_file read_csv read_excel "csv"
        = (None, if is_UnicodeDecodeError e then []
                 else [st_error ("文件解析错误：" ++ exn_str e)]))
  /\ (forall extension,
        str_in extension ["csv"; "xlsx"; "xls"] = false ->
        _parse_file read_csv read_excel extension = (None, [])).
Proof.
  assert (Hskip : forall x rest,
             x <> "latin-1" -> (exists e, read_csv x = Raise e) ->
             try_encodings read_csv (x :: rest)
             = try_encodings read_csv rest).
  { intros x rest Hx [e He]. cbn [try_encodings]. rewrite He.
    destruct (is_UnicodeDecodeError e); [reflexivity|].
    rewrite last_encoding. apply String.eqb_neq in Hx. now rewrite Hx. }
  split; [|split].
  - intros before encoding after df Hsplit Hfail Hok.
    assert (Htry : try_encodings read_csv encodings
                   = Ret (Some (_clean_dataframe df))).
    { unfold encodings in *.
      do 3 (destruct before as [|x before]; cbn [app] in Hsplit;
            [ injection Hsplit as <- <-; cbn [try_encodings];
              now rewrite Hok
            | injection Hsplit as <- Hsplit;
              rewrite Hskip;
              [ | discriminate | apply Hfail; now left ];
              pose proof (fun y (H : In y before) =>
                            Hfail y (or_intror H)) as Hfail';
              clear Hfail; rename Hfail' into Hfail ]).
      destruct before as [|x before]; cbn [app] in Hsplit.
      - injection Hsplit as <- <-. cbn [try_encodings]. now rewrite Hok.
      - injection Hsplit as _ Hsplit.
        destruct before; cbn [app] in Hsplit; discriminate Hsplit. }
    unfold _parse_file. cbn [String.eqb Ascii.eqb Bool.eqb].
    rewrite Htry. now destruct (_clean_dataframe df).
  - intros e Hfail Hlast. unfold _parse_file.
    cbn [String.eqb Ascii.eqb Bool.eqb]. unfold encodings in *.
    rewrite !Hskip by (try discriminate; apply Hfail; cbn [In]; tauto).
    cbn [try_encodings]. rewrite Hlast.
    now destruct (is_UnicodeDecodeError e).
  - intros extension Hext. unfold _parse_file.
    cbn [str_in existsb] in Hext.
    apply Bool.orb_false_elim in Hext. destruct Hext as [Hcsv Hrest].
    rewrite Hcsv. cbn [str_in existsb]. now rewrite Hrest.
Qed.

Lemma try_encodings_some read_csv todo r :
  try_encodings read_csv todo = Ret (Some r) ->
  exists encoding df,
    In encoding todo /\ read_csv encoding = Ret df
    /\ r = _clean_dataframe df.
Proof.
  induction todo as [|encoding rest IH]; cbn [try_encodings];
    [discriminate|].
  destruct (read_csv encoding) as [df|e] eqn:Hr.
  - intros H. injection H as <-. exists encoding, df. now repeat split; [left|..].
  - intros H.
    assert (Hrest : try_encodings read_csv rest = Ret (Some r)).
    { destruct (is_UnicodeDecodeError e); [exact H|].
      destruct (String.eqb encoding (last encodings "")); [discriminate H|].
      exact H. }
    destruct (IH Hrest) as (enc & df & Hin & Hok & ->).
    exists enc, df. repeat split; [now right | exact Hok].
Qed.

Lemma parse_file_some read_csv read_excel extension df ws :
  _parse_file read_csv read_excel extension = (Some df, ws) ->
  str_in extension supported_formats = true
  /\ exists df0,
       ((exists encoding, In encoding encodings
                          /\ read_csv encoding = Ret df0)
        \/ read_excel = Ret df0)
       /\ (df, ws) = _clean_dataframe df0.
Proof.
  unfold _parse_file, supported_formats. cbn [str_in existsb].
  destruct (String.eqb extension "csv") eqn:Hcsv.
  - destruct (try_encodings read_csv encodings) as [[[df' ws']|]|e] eqn:Ht;
      try discriminate.
    intros H. injection H as <- <-. split; [reflexivity|].
    destruct (try_encodings_some _ _ _ Ht) as (enc & df0 & Hin & Hok & ->).
    exists df0. split; [left; now exists enc | reflexivity].
  - cbn [orb].
    destruct (String.eqb extension "xlsx" || (String.eqb extension "xls" || false))
      eqn:Hx; [|discriminate].
    destruct read_excel as [df0|e]; cbn [bind]; [|discriminate].
    destruct (_clean_dataframe df0) as [df' ws'] eqn:Hc.
    intros H. injection H as <- <-. split; [reflexivity|].
    exists df0. split; [now right | now rewrite Hc].
Qed.

(** X24. Every upload ends in one line of its own. A frame is returned only
    for a file within the size limit whose extension, lower-cased, is a
    supported one, and it is the cleaned form of what pandas read from
    the file; the last line shown is then the success line with the
    dimensions of that frame. When nothing is returned the last line
    shown is an error, and a file over the limit is not read at all. *)
Theorem upload_file_outcome lower f :
  match upload_file lower (Some f) with
  | (Some df, lines) =>
      too_large f = false
      /\ str_in (file_extension lower f) supported_formats = true
      /\ (exists df0,
            ((exists encoding, In encoding encodings
                               /\ file_read_csv f encoding = Ret df0)
             \/ file_read_excel f = Ret df0)
            /\ df = fst (_clean_dataframe df0)
            /\ lines = map on_page (snd (_clean_dataframe df0))
                       +++ [upload_success df])
  | (None, lines) =>
      (exists before msg, lines = before +++ [on_page (st_error msg)])
      /\ (too_large f = true ->
          lines = [on_page (st_error "文件大小超过限制（200MB）")])
  end.
Proof.
  unfold upload_file. destruct (too_large f) eqn:Hsize.
  - split; [eexists [], _; reflexivity | reflexivity].
  - destruct (_parse_file (file_read_csv f) (file_read_excel f)
                (file_extension lower f)) as [[df|] ws] eqn:Hp.
    + destruct (parse_file_some _ _ _ _ _ Hp) as (Hext & df0 & Hread & Hc).
      repeat split; [exact Hext|].
      exists df0. rewrite <- Hc. now repeat split.
    + split; [eexists (map on_page ws), _; reflexivity | discriminate].
Qed.

End CleaningFacts.

(* ================================================================== *)
(** * The further properties on the sample data *)

(** The rejected table of seven rows is an object under ['table'] whose
    ['data'] has a length. *)
Lemma check_rejects_only_sized_data_witness :
  exists d key p data n,
    PDict [("table", big_table_payload)] = PDict d
    /\ In key ["table"; "bar"; "line"]
    /\ dict_lookup key d = Some (PDict p)
    /\ dict_lookup "data" p = Some data
    /\ py_len data = Ret n.
Proof.
  apply (check_rejects_only_sized_data
           (PDict [("table", big_table_payload)]) sales_df).
  vm_compute. reflexivity.
Defined.




(** The object salvaged from the reply with prose is flat. *)
Lemma salvage_returns_flat_objects_witness :
  exists d, PDict [("answer", PStr "total is 42")] = PDict d
    /\ entries_nodes d = 0
    /\ forall key x, dict_lookup key d = Some x ->
         dict_nodes x = 0 /\ forall p, x <> PDict p.
Proof.
  apply (salvage_returns_flat_objects reply_with_prose).
  vm_compute. reflexivity.
Defined.


(** The chart drawn for two bars comes from two arrays of length 2. *)
Lemma charts_only_from_matching_arrays_witness :
  drawable (str_list ["A"; "B"]) (num_list [10; 20]%Z).
Proof.
  apply (charts_only_from_matching_arrays
           (PDict [("bar", PDict good_bar_payload)])
           {| fig_data := go_Bar (str_list ["A"; "B"]) (num_list [10; 20]%Z)
                                 ["#1f77b4"; "#ff7f0e"]
                                 (num_list [10; 20]%Z);
              fig_title := "柱状图分析";
              fig_axes := Some ("类别", "数值") |}).
  vm_compute. left. reflexivity.
Defined.

(** Two bars are drawn in the first two colours of the palette. *)
Lemma bar_chart_drawn_witness :
  _render_bar_chart (PDict good_bar_payload)
  = [st_plotly_chart
       {| fig_data := go_Bar (str_list ["A"; "B"]) (num_list [10; 20]%Z)
                             ["#1f77b4"; "#ff7f0e"] (num_list [10; 20]%Z);
          fig_title := "柱状图分析";
          fig_axes := Some ("类别", "数值") |};
     st_expander "数据详情"
       [st_dataframe (frame_of_dict [("类别", str_list ["A"; "B"]);
                                     ("数值", num_list [10; 20]%Z)])]].
Proof.
  exact (proj1 (bar_chart_drawn good_bar_payload 2
                  eq_refl eq_refl eq_refl eq_refl)).
Defined.

(** Two points with two labels keep their labels. *)
Lemma scatter_keeps_matching_labels_witness :
  _render_scatter_chart (PDict labelled_scatter_payload)
  = scatter_widgets (num_list [1; 2]%Z) (num_list [3; 4]%Z)
                    (str_list ["a"; "b"]).
Proof.
  exact (scatter_keeps_matching_labels labelled_scatter_payload 2
           eq_refl eq_refl eq_refl eq_refl eq_refl eq_refl).
Defined.

(** A number as payload gives each renderer's error notice. *)
Lemma non_object_payload_gives_error_witness :
  exists msg,
    _render_table (PInt 5) = [st_error ("表格渲染错误：" ++ msg)]
    /\ _render_bar_chart (PInt 5) = [st_error ("柱状图渲染错误：" ++ msg)]
    /\ _render_line_chart (PInt 5) = [st_error ("折线图渲染错误：" ++ msg)]
    /\ _render_pie_chart (PInt 5) = [st_error ("饼图渲染错误：" ++ msg)]
    /\ _render_scatter_chart (PInt 5)
       = [st_error ("散点图渲染错误：" ++ msg)].
Proof.
  apply (non_object_payload_gives_error (PInt 5)).
  intros p. discriminate.
Defined.

(** An object with an unknown key only fails the format check and gets
    the unsupported-format warning. *)
Lemma format_check_agrees_with_renderer_witness :
  validate_response_format (PDict [("summary", PStr "ok")]) = false
  <-> render_response (PDict [("summary", PStr "ok")])
      = [st_warning "不支持的响应格式"].
Proof.
  apply (format_check_agrees_with_renderer [("summary", PStr "ok")]).
  discriminate.
Defined.

(** A failed call shows one line on either page. *)
Lemma model_fault_on_page_witness :
  run_analysis failing_model "total?" sales_df
  = [page_error ("分析失败：AI处理错误: " ++ "connection timed out")]
  /\ run_visualization failing_model "total?" sales_df
     = [page_error ("可视化生成失败：AI处理错误: " ++ "connection timed out")].
Proof.
  exact (model_fault_on_page failing_model "total?" sales_df
           (Exn (OtherError "ConnectionError") "connection timed out")
           eq_refl eq_refl).
Defined.


(** The answer of the model reaches the analysis page. *)
Lemma text_answer_reaches_page_witness :
  run_analysis answer_model "total?" sales_df
  = [page_markdown "### 分析结果";
     page_render [st_info ("分析结果: " ++ "ok")];
     page_expander "调试信息"
       [page_json
          (PDict [("success", PBool true);
                  ("data", PDict [("answer", PStr "ok")]);
                  ("raw_response",
                   PStr (py_strip (unq " {'answer': 'ok'} ")))])]].
Proof.
  apply (text_answer_reaches_page answer_model "total?" sales_df
           (unq " {'answer': 'ok'} ") [("answer", PStr "ok")] "ok").
  - reflexivity.
  - vm_compute. reflexivity.
  - reflexivity.
  - reflexivity.
  - reflexivity.
  - reflexivity.
Defined.

(** A question of blanks gives the same page whatever the model. *)
Lemma blank_question_skips_model_witness :
  show_ai_analysis failing_model (Some sales_df) "   " true
  = show_ai_analysis answer_model (Some sales_df) "   " true.
Proof.
  refine (proj1 (blank_question_skips_model failing_model answer_model
                   (Some sales_df) "   " true _)).
  right. right. vm_compute. reflexivity.
Defined.

(** Cleaning the ragged frame drops its empty row and column and trims
    the name; the reader that accepts gbk only gives that frame. *)
Example clean_ragged_frame :
  _clean_dataframe ragged_df
  = ({| df_len := 2;
        df_columns :=
          [("name", {| dtype := "object";
                       values := [Some "a"; Some "b"] |})] |}, [])
  /\ _parse_file gbk_reader (Ret ragged_df) "csv"
     = (Some (fst (_clean_dataframe ragged_df)), []).
Proof. split; vm_compute; reflexivity. Qed.
